(** * zillowgif.py: the ZHVI animation pipeline

    A shallow embedding of [src/zillowgif.py] and the properties of its
    frame sampler, axis bounds, duration tiers, series extractor and
    dataset cache.

    Conventions of the embedding:
    - Python integers are [Z]; [//] is [Z.div] (both floor), [%] is [Z.modulo].
    - The per-frame durations [0.3], [0.15] and [0.1] are exact rationals
      [Q]; the script chooses one and hands it on without computing with
      it.
    - A ZHVI cell is a [number] as pandas holds it, an [int64] or a
      [float64], and the arithmetic of the axis bounds is numpy's: [int64]
      wraps around, [float64] is the machine's binary64 ([PrimFloat]).  A
      null (NaN) cell is [None].
    - Strings are [string]; the model of [int] and [strptime] covers ASCII.
    - The file system, the network and standard output are fields of an
      explicit [World] threaded through the functions. *)

From Stdlib Require Import ZArith QArith List String Ascii Bool Lia.
From Stdlib Require Import Sorted.
From Stdlib Require Import Floats Uint63.
Import ListNotations.

#[local] Open Scope string_scope.
#[local] Open Scope list_scope.
#[local] Open Scope Z_scope.

(** ** Python builtins used by the script *)

Module Py.

(** [for i in range(start, stop, step)] with a positive step: the loop
    variable starts at [start] and advances by [step] while it is below
    [stop].  The fuel bounds the number of iterations. *)
Fixpoint range_loop (fuel : nat) (i stop step : Z) : list Z :=
  match fuel with
  | O => []
  | S fuel' =>
      if i <? stop then i :: range_loop fuel' (i + step) stop step else []
  end.

(** The same loop for a negative step: it runs while [i] is above [stop]. *)
Fixpoint range_loop_down (fuel : nat) (i stop step : Z) : list Z :=
  match fuel with
  | O => []
  | S fuel' =>
      if stop <? i then i :: range_loop_down fuel' (i + step) stop step else []
  end.

(** [range(start, stop, step)]; [None] is the [ValueError] of a zero step. *)
Definition range (start stop step : Z) : option (list Z) :=
  if step =? 0 then None
  else if 0 <? step
       then Some (range_loop (Z.to_nat (stop - start)) start stop step)
       else Some (range_loop_down (Z.to_nat (start - stop)) start stop step).

(** [len(xs)] *)
Definition len {A : Type} (xs : list A) : Z := Z.of_nat (List.length xs).

(** [xs[:n]] for [n >= 0] *)
Definition slice_to {A : Type} (n : Z) (xs : list A) : list A :=
  firstn (Z.to_nat n) xs.

(** *** [int(s)] on ASCII text *)

Definition code (c : ascii) : Z := Z.of_nat (nat_of_ascii c).

(** White space as [int] skips it in ASCII text: TAB..CR and the blank. *)
Definition is_space (c : ascii) : bool :=
  let n := code c in
  ((9 <=? n) && (n <=? 13)) || (n =? 32).

Definition is_digit (c : ascii) : bool :=
  let n := code c in (48 <=? n) && (n <=? 57).

Definition digit_value (c : ascii) : Z := code c - 48.

Fixpoint lstrip (s : string) : string :=
  match s with
  | String c s' => if is_space c then lstrip s' else s
  | EmptyString => EmptyString
  end.

Fixpoint all_space (s : string) : bool :=
  match s with
  | String c s' => is_space c && all_space s'
  | EmptyString => true
  end.

(** The digits of a decimal literal: at least one digit, single
    underscores only between digits, then white space up to the end.
    [prev_digit] tells whether the previous character was a digit. *)
Fixpoint int_digits (acc : Z) (prev_digit : bool) (s : string) : option Z :=
  match s with
  | EmptyString => if prev_digit then Some acc else None
  | String c s' =>
      if is_digit c then int_digits (10 * acc + digit_value c) true s'
      else if Ascii.eqb c "_" then
        (if prev_digit then int_digits acc false s' else None)
      else if is_space c then
        (if prev_digit && all_space s' then Some acc else None)
      else None
  end.

(** [int(s)]: [None] is the [ValueError]. *)
Definition int (s : string) : option Z :=
  match lstrip s with
  | String c s' =>
      if Ascii.eqb c "-" then option_map Z.opp (int_digits 0 false s')
      else if Ascii.eqb c "+" then int_digits 0 false s'
      else int_digits 0 false (String c s')
  | EmptyString => None
  end.

(** *** [datetime.strptime(s, '%Y-%m-%d')] on ASCII text

    The format compiles to the regular expression
    [(\d\d\d\d)-(1[0-2]|0[1-9]|[1-9])-(3[0-1]|[1-2]\d|0[1-9]|[1-9]| [1-9])],
    matched at the start of [s] with ordered alternatives; text left
    after the match and a day the month does not have are [ValueError]s. *)

Definition in_range (lo hi : Z) (c : ascii) : bool :=
  (lo <=? code c) && (code c <=? hi).

(** One way to match a group: its value and the text that follows. *)
Definition cands : Type := list (Z * string).

(** [%Y]: four digits. *)
Definition match_Y (s : string) : cands :=
  match s with
  | String a (String b (String c (String d r))) =>
      if is_digit a && is_digit b && is_digit c && is_digit d
      then [(1000 * digit_value a + 100 * digit_value b
             + 10 * digit_value c + digit_value d, r)]
      else []
  | _ => []
  end.

(** [%m]: [1[0-2]|0[1-9]|[1-9]], alternatives in this order. *)
Definition match_m (s : string) : cands :=
  (match s with
   | String "1" (String b r) =>
       if in_range 48 50 b then [(10 + digit_value b, r)] else []
   | _ => []
   end)
  ++ (match s with
      | String "0" (String b r) =>
          if in_range 49 57 b then [(digit_value b, r)] else []
      | _ => []
      end)
  ++ (match s with
      | String a r => if in_range 49 57 a then [(digit_value a, r)] else []
      | _ => []
      end).

(** [%d]: [3[0-1]|[1-2]\d|0[1-9]|[1-9]| [1-9]], alternatives in this order. *)
Definition match_d (s : string) : cands :=
  (match s with
   | String "3" (String b r) =>
       if in_range 48 49 b then [(30 + digit_value b, r)] else []
   | _ => []
   end)
  ++ (match s with
      | String a (String b r) =>
          if in_range 49 50 a && is_digit b
          then [(10 * digit_value a + digit_value b, r)] else []
      | _ => []
      end)
  ++ (match s with
      | String "0" (String b r) =>
          if in_range 49 57 b then [(digit_value b, r)] else []
      | _ => []
      end)
  ++ (match s with
      | String a r => if in_range 49 57 a then [(digit_value a, r)] else []
      | _ => []
      end)
  ++ (match s with
      | String " " (String b r) =>
          if in_range 49 57 b then [(digit_value b, r)] else []
      | _ => []
      end).

(** The literal [-] of the format. *)
Definition match_dash (s : string) : list string :=
  match s with
  | String "-" r => [r]
  | _ => []
  end.

(** The matches of [-%m-%d], in backtracking order. *)
Definition match_md (s : string) : list (Z * Z * string) :=
  flat_map (fun r2 =>
    flat_map (fun '(m, r3) =>
      flat_map (fun r4 =>
        map (fun '(d, r5) => (m, d, r5)) (match_d r4))
      (match_dash r3))
    (match_m r2))
  (match_dash s).

(** All matches of the whole expression, in backtracking order. *)
Definition match_Ymd (s : string) : list (Z * Z * Z * string) :=
  flat_map (fun '(y, r1) =>
    map (fun '(m, d, r5) => (y, m, d, r5)) (match_md r1))
  (match_Y s).

Definition is_leap (y : Z) : bool :=
  (y mod 4 =? 0) && (negb (y mod 100 =? 0) || (y mod 400 =? 0)).

Definition days_in_month (y m : Z) : Z :=
  if m =? 2 then (if is_leap y then 29 else 28)
  else if (m =? 4) || (m =? 6) || (m =? 9) || (m =? 11) then 30
  else 31.

(** [date(y, m, d)] accepts years 1..9999 and the days the month has. *)
Definition valid_date (y m d : Z) : bool :=
  (1 <=? y) && (y <=? 9999) && (1 <=? m) && (m <=? 12)
  && (1 <=? d) && (d <=? days_in_month y m).

(** [datetime.strptime(s, '%Y-%m-%d')]: the date, or [None] for a
    [ValueError]. *)
Definition strptime_Ymd (s : string) : option (Z * Z * Z) :=
  match match_Ymd s with
  | (y, m, d, EmptyString) :: _ =>
      if valid_date y m d then Some (y, m, d) else None
  | _ => None
  end.

(** *** [s.strip()] on ASCII text *)

(** White space as [str.strip] removes it: TAB..CR, FS..US and the blank
    ([str.isspace]). *)
Definition is_uspace (c : ascii) : bool :=
  let n := code c in
  ((9 <=? n) && (n <=? 13)) || ((28 <=? n) && (n <=? 32)).

Fixpoint str_lstrip (s : string) : string :=
  match s with
  | String c s' => if is_uspace c then str_lstrip s' else s
  | EmptyString => EmptyString
  end.

Fixpoint str_rstrip (s : string) : string :=
  match s with
  | String c s' =>
      match str_rstrip s' with
      | EmptyString => if is_uspace c then EmptyString else String c EmptyString
      | r => String c r
      end
  | EmptyString => EmptyString
  end.

Definition strip (s : string) : string := str_rstrip (str_lstrip s).

(** *** The form [YYYY-MM-DD] as the specification words it

    Four digits of year, two of month, two of day, zero padded, as
    [date.isoformat()] writes a date. *)

Definition digit_char (n : Z) : ascii := ascii_of_nat (Z.to_nat (48 + n)).

Definition two_digits (n : Z) (rest : string) : string :=
  String (digit_char (n / 10)) (String (digit_char (n mod 10)) rest).

Definition spec_iso_date (y m d : Z) : string :=
  two_digits (y / 100) (two_digits (y mod 100)
    (String "-" (two_digits m (String "-" (two_digits d EmptyString))))).

(** *** The texts [strptime] reads as a date, written out

    The month is written with two digits or, below 10, with its one digit;
    the day with two digits or, below 10, with its one digit, alone or
    after a blank. *)

Definition spec_month_texts (m : Z) : list string :=
  two_digits m EmptyString
  :: (if m <? 10 then [String (digit_char m) EmptyString] else []).

Definition spec_day_texts (d : Z) : list string :=
  two_digits d EmptyString
  :: (if d <? 10
      then [String (digit_char d) EmptyString;
            String " " (String (digit_char d) EmptyString)]
      else []).

Definition spec_date_texts (y m d : Z) : list string :=
  flat_map (fun mt =>
    map (fun dt =>
           two_digits (y / 100) (two_digits (y mod 100)
             (String "-" (mt ++ String "-" dt))))
        (spec_day_texts d))
    (spec_month_texts m).

(** A header in the form the specification names: the zero-padded
    [YYYY-MM-DD] text of a calendar date. *)
Definition spec_is_iso_date (s : string) : Prop :=
  exists y m d, valid_date y m d = true /\ s = spec_iso_date y m d.

End Py.

(** ** Step 5: the frame sampler (lines 109-114 and the loop header, line 129) *)

Definition max_frames_for_gif : Z := 150.

(** Lines 110-113: [frame_step] for a series of [num_points] points. *)
Definition frame_step (num_points : Z) : Z :=
  if num_points >? max_frames_for_gif
  then Z.max 1 (num_points / max_frames_for_gif)
  else 1.

(** Line 129: the values taken by [i], in the order the loop visits them. *)
Definition frame_indices (num_points : Z) : list Z :=
  match Py.range 0 num_points (frame_step num_points) with
  | Some l => l
  | None => []
  end.

(** The stride as the specification words it: [S = 1] if [N <= B], else
    [max(1, floor(N / B))]. *)
Definition spec_stride (N B : Z) : Z :=
  if N <=? B then 1 else Z.max 1 (N / B).

(** ** Step 6: the per-frame duration (lines 164-169) *)

Definition duration_per_frame_seconds (num_actual_frames : Z) : Q :=
  if num_actual_frames <? 50 then 3 # 10          (* 0.3 *)
  else if num_actual_frames >? 120 then 1 # 10    (* 0.1 *)
  else 15 # 100.                                  (* 0.15, the default *)

(** The tiers as the specification names them. *)
Inductive tier : Type := Slow | Middle | Fast.

Definition tier_seconds (t : tier) : Q :=
  match t with
  | Slow => 3 # 10
  | Middle => 15 # 100
  | Fast => 1 # 10
  end.

Definition spec_tier (F : Z) : tier :=
  if F <? 50 then Slow
  else if F >? 120 then Fast
  else Middle.

(** ** The data the script works on *)

(** A number of a numeric column read by [pd.read_csv]: a column of whole
    numbers has dtype [int64], any other numeric column [float64].  [Int64 z]
    is meant for [-2^63 <= z < 2^63], and [Float64 f] for an [f] that is no
    NaN: pandas takes a NaN for a null cell. *)
Inductive number : Type :=
| Int64 (z : Z)
| Float64 (f : float).

(** A cell of a month column: a number, or [None] when it is empty (NaN). *)
Definition cell := option number.

(** One row of the dataset, with the columns the published schema has: the
    integer [RegionName], the texts [City] and [State], and the cell under
    every other header. *)
Record Row : Type := mkRow {
  RegionName : Z;
  City : string;
  State : string;
  at_column : string -> cell
}.

(** [pd.read_csv]'s result: the header, in file order, and the rows. *)
Record DataFrame : Type := mkDataFrame {
  columns : list string;
  rows : list Row
}.

(** What the file [CSV_FILENAME] holds: a table, or bytes that
    [pd.read_csv] rejects. *)
Inductive FileContent : Type :=
| Table (df : DataFrame)
| Unreadable.

(** What one [requests.get] on [DATA_URL] leads to in [download_data]:
    - [RequestFailed]: the connection or [raise_for_status] raises before
      the file is opened;
    - [Served c]: every chunk arrives and is written;
    - [Interrupted c]: the stream raises after the file has been opened,
      which leaves the chunks written so far. *)
Inductive Response : Type :=
| RequestFailed
| Served (content : FileContent)
| Interrupted (partial : FileContent).

(** The lines the script prints. *)
Inductive message : Type :=
| MsgDownloading
| MsgDownloaded
| MsgDownloadError
| MsgDownloadFailedExiting
| MsgLoading
| MsgReadError
| MsgInvalidZip (zip_code_str : string)
| MsgZipNotFound (zip_code_str : string) (zip_code_int : Z)
| MsgEnsureZip
| MsgNoDateColumns
| MsgCheckCsv
| MsgNoData (zip_code_str : string)
| MsgGeneratingFrames
| MsgEveryNth (num_points frame_step : Z)
| MsgFrameProgress (k total : Z)
| MsgCreatingGif (gif_filename : string)
| MsgSaved (gif_filename : string)
| MsgProcessComplete.

(** One rendered chart: what [ax.plot], [ax.set_ylim] and [ax.set_title]
    were given for the frame of index [i]. *)
Record Frame : Type := mkFrame {
  frame_i : Z;
  plotted : list cell;
  ylim : number * number;
  title_zip : string;
  title_location : string
}.

(** What [imageio.mimsave] writes. *)
Record Animation : Type := mkAnimation {
  frames : list Frame;
  duration : Q
}.

(** Uncaught exceptions the function can leave with. *)
Inductive exn : Type :=
| AttributeError
| ValueError.

(** How a call of [generate_zhvi_animation] ends. *)
Inductive result : Type :=
| Returned
| Raised (e : exn).

(** The environment of a run.  [remote n] is the network's answer to the
    request made after [n] earlier ones; [gif_files] lists the animation
    files of the working directory, the latest write first. *)
Record World : Type := mkWorld {
  csv_file : option FileContent;
  remote : nat -> Response;
  net_calls : nat;
  stdout : list message;
  gif_files : list (string * Animation)
}.

Definition print (ms : list message) (w : World) : World :=
  mkWorld (csv_file w) (remote w) (net_calls w) (stdout w ++ ms) (gif_files w).

Definition write_csv (c : FileContent) (w : World) : World :=
  mkWorld (Some c) (remote w) (net_calls w) (stdout w) (gif_files w).

Definition http_get (w : World) : Response * World :=
  (remote w (net_calls w),
   mkWorld (csv_file w) (remote w) (S (net_calls w)) (stdout w) (gif_files w)).

Definition mimsave (name : string) (a : Animation) (w : World) : World :=
  mkWorld (csv_file w) (remote w) (net_calls w) (stdout w)
          ((name, a) :: gif_files w).

(** ** [download_data] (lines 17-37) *)

Definition download_data (w : World) : bool * World :=
  let w := print [MsgDownloading] w in
  let '(r, w) := http_get w in
  match r with
  | RequestFailed => (false, print [MsgDownloadError] w)
  | Interrupted c => (false, print [MsgDownloadError] (write_csv c w))
  | Served c => (true, print [MsgDownloaded] (write_csv c w))
  end.

(** ** Steps 3 and 4: the series extractor (lines 60-96) *)

(** Lines 75-83: the headers [strptime] accepts, in header order. *)
Definition is_date_column (col_name : string) : bool :=
  match Py.strptime_Ymd col_name with
  | Some _ => true
  | None => false
  end.

Definition date_columns (df : DataFrame) : list string :=
  filter is_date_column (columns df).

(** Line 67: [df[df['RegionName'] == zip_code_int]]. *)
Definition zip_data_row (zip_code_int : Z) (df : DataFrame) : list Row :=
  filter (fun r => RegionName r =? zip_code_int) (rows df).

(** [frame[cols]]: the cells of each row under the columns [cols]. *)
Definition select (cols : list string) (rs : list Row) : list (list cell) :=
  map (fun r => map (at_column r) cols) rs.

(** What [DataFrame.squeeze()] returns: an axis of length one is dropped, so
    a 1 x 1 selection becomes a scalar, a single row or a single column a
    Series, and anything else stays a frame. *)
Inductive squeezed : Type :=
| Scalar (v : cell)
| Series (vs : list cell)
| Frame2D (ncols : nat) (sel : list (list cell)).

Definition squeeze (ncols : nat) (sel : list (list cell)) : squeezed :=
  match sel with
  | [r] =>
      match r with
      | [v] => Scalar v
      | _ => Series r
      end
  | _ =>
      if Nat.eqb ncols 1
      then Series (flat_map (fun r => firstn 1 r) sel)
      else Frame2D ncols sel
  end.

Definition isnull (c : cell) : bool :=
  match c with
  | None => true
  | Some _ => false
  end.

Definition is_empty {A : Type} (l : list A) : bool :=
  match l with
  | [] => true
  | _ :: _ => false
  end.

(** How the stage ends: with an error message and [return], with an
    uncaught exception, or with the matched rows and the series. *)
Inductive extraction : Type :=
| Abort (ms : list message)
| Crash (e : exn)
| Extracted (matched : list Row) (zhvi_series : list cell).

Definition series_extractor (zip_code_str : string) (df : DataFrame)
  : extraction :=
  match Py.int zip_code_str with
  | None => Abort [MsgInvalidZip zip_code_str]
  | Some zip_code_int =>
      let matched := zip_data_row zip_code_int df in
      if is_empty matched
      then Abort [MsgZipNotFound zip_code_str zip_code_int; MsgEnsureZip]
      else
        let cols := date_columns df in
        if is_empty cols
        then Abort [MsgNoDateColumns; MsgCheckCsv]
        else
          (* line 92 *)
          match squeeze (List.length cols) (select cols matched) with
          | Scalar _ =>
              (* line 94: a number has no attribute [empty] *)
              Crash AttributeError
          | Series zhvi_series =>
              if is_empty zhvi_series || forallb isnull zhvi_series
              then Abort [MsgNoData zip_code_str]
              else Extracted matched zhvi_series
          | Frame2D ncols sel =>
              (* line 94: [.empty] holds when an axis has length zero;
                 otherwise [.isnull().all()] is a Series, whose truth value
                 is ambiguous *)
              if is_empty sel || Nat.eqb ncols 0
              then Abort [MsgNoData zip_code_str]
              else Crash ValueError
          end
  end.

(** ** Step 5: axis bounds and frames (lines 102-157) *)

Definition non_null (vs : list cell) : list number :=
  flat_map (fun c => match c with Some v => [v] | None => [] end) vs.

(** *** numpy's scalar arithmetic on [int64] and [float64] *)

(** The value of an [int64] operation whose exact result is [z]: it wraps
    around modulo [2^64]. *)
Definition wrap64 (z : Z) : Z := (z + 2 ^ 63) mod 2 ^ 64 - 2 ^ 63.

(** The [float64] nearest to an [int64]. *)
Definition float_of_int64 (z : Z) : float :=
  if z <? 0
  then (if z =? - 2 ^ 63 then (- 0x1p63)%float
        else (- PrimFloat.of_uint63 (Uint63.of_Z (- z)))%float)
  else PrimFloat.of_uint63 (Uint63.of_Z z).

Definition to_float (n : number) : float :=
  match n with
  | Int64 z => float_of_int64 z
  | Float64 f => f
  end.

(** [a - b] and [a + b]: two [int64] give an [int64]; with a [float64] on
    either side the other is converted and the result is a [float64]. *)
Definition np_sub (a b : number) : number :=
  match a, b with
  | Int64 x, Int64 y => Int64 (wrap64 (x - y))
  | _, _ => Float64 (to_float a - to_float b)%float
  end.

Definition np_add (a b : number) : number :=
  match a, b with
  | Int64 x, Int64 y => Int64 (wrap64 (x + y))
  | _, _ => Float64 (to_float a + to_float b)%float
  end.

(** [a * f] for a Python float [f]: always a [float64]. *)
Definition np_mul_float (a : number) (f : float) : number :=
  Float64 (to_float a * f)%float.

(** [a == 0] *)
Definition np_eq_zero (a : number) : bool :=
  match a with
  | Int64 z => z =? 0
  | Float64 f => (f =? 0)%float
  end.

(** [a <= b] *)
Definition np_leb (a b : number) : bool :=
  match a, b with
  | Int64 x, Int64 y => x <=? y
  | _, _ => (to_float a <=? to_float b)%float
  end.

Definition np_minimum (a b : number) : number := if np_leb a b then a else b.
Definition np_maximum (a b : number) : number := if np_leb a b then b else a.

(** The Python float literals [0.05] and [0.1], that is, the [float64]
    nearest to each. *)
Definition literal_0_05 : float := 0x1.999999999999ap-5%float.
Definition literal_0_1 : float := 0x1.999999999999ap-4%float.

(** *** The series' numbers (lines 122-123) *)

Definition is_int64 (c : cell) : bool :=
  match c with
  | Some (Int64 _) => true
  | _ => false
  end.

(** Line 100, [zhvi_series.values]: the array the Series computes with.
    [zhvi_series] lists the cells as the table holds them.  A row whose
    month columns all have dtype [int64] squeezes to a Series of dtype
    [int64]; as soon as one column is a [float64] column (every column with
    a null cell is one) the Series has dtype [float64] and its whole numbers
    are converted. *)
Definition values (zhvi_series : list cell) : list cell :=
  if forallb is_int64 zhvi_series then zhvi_series
  else map (option_map (fun v => Float64 (to_float v))) zhvi_series.

(** [Series.min()] and [Series.max()] skip the null cells; [None] is the NaN
    of a series without a number. *)
Definition series_min (vs : list cell) : option number :=
  match non_null (values vs) with
  | [] => None
  | v :: rest => Some (fold_left np_minimum rest v)
  end.

Definition series_max (vs : list cell) : option number :=
  match non_null (values vs) with
  | [] => None
  | v :: rest => Some (fold_left np_maximum rest v)
  end.

(** Lines 124-126.  The fallback [10000] is a Python [int]; next to an
    [int64] it acts as one, next to a [float64] it is converted. *)
Definition y_padding (overall_min_val overall_max_val : number) : number :=
  let y_padding :=
    np_mul_float (np_sub overall_max_val overall_min_val) literal_0_05 in
  if np_eq_zero y_padding
  then (if negb (np_eq_zero overall_min_val)
        then np_mul_float overall_min_val literal_0_1
        else Int64 10000)
  else y_padding.

(** Line 138: the arguments of [ax.set_ylim]. *)
Definition y_limits (overall_min_val overall_max_val : number)
  : number * number :=
  let pad := y_padding overall_min_val overall_max_val in
  (np_sub overall_min_val pad, np_add overall_max_val pad).

(** Lines 117-119. *)
Definition location_info (matched : list Row) : string :=
  match matched with
  | r :: _ => City r ++ ", " ++ State r
  | [] => ""
  end.

(** The body of the loop (lines 130-155) for one [i]. *)
Definition render (zip_code_str location : string) (values : list cell)
    (bounds : number * number) (i : Z) : Frame :=
  mkFrame i (Py.slice_to (i + 1) values) bounds zip_code_str location.

(** Lines 156-157. *)
Definition progress (num_points step i : Z) : list message :=
  if (i / step) mod 20 =? 0
  then [MsgFrameProgress (i / step + 1) ((num_points - 1) / step + 1)]
  else [].

Definition gif_filename (zip_code_str : string) : string :=
  "zhvi_animation_" ++ zip_code_str ++ ".gif".

(** Steps 5 and 6 (lines 98-175), entered with the extracted series, on the
    runs where line 99 returns.  Line 99 converts the date headers once
    more, with [pd.to_datetime]; what that function accepts depends on the
    installed pandas and is not modelled here.  It accepts the zero-padded
    [YYYY-MM-DD] headers of the published dataset; for a header that
    [strptime] took and [pd.to_datetime] rejects (one with a blank before the
    day, say) the call raises and the function is left with that exception
    before anything of step 5 is printed or written.  The properties of
    [animate] below are therefore stated for the runs that write their
    file. *)
Definition animate (zip_code_str : string) (matched : list Row)
    (zhvi_series : list cell) (w : World) : result * World :=
  let values := values zhvi_series in
  let w := print [MsgGeneratingFrames] w in
  let num_points := Py.len zhvi_series in
  let step := frame_step num_points in
  let w := if num_points >? max_frames_for_gif
           then print [MsgEveryNth num_points step] w else w in
  let location := location_info matched in
  match series_min zhvi_series, series_max zhvi_series with
  | Some overall_min_val, Some overall_max_val =>
      let bounds := y_limits overall_min_val overall_max_val in
      let indices := frame_indices num_points in
      let frames := map (render zip_code_str location values bounds) indices in
      let w := print (flat_map (progress num_points step) indices) w in
      let name := gif_filename zip_code_str in
      let w := print [MsgCreatingGif name] w in
      let num_actual_frames := Py.len frames in
      let d := duration_per_frame_seconds num_actual_frames in
      let w := mimsave name (mkAnimation frames d) w in
      (Returned, print [MsgSaved name; MsgProcessComplete] w)
  | _, _ =>
      (* not reached: line 94 has excluded a series without a number *)
      (Raised ValueError, w)
  end.

(** The animation [animate] hands to [imageio.mimsave], written out. *)
Definition animation_of (zip_code_str : string) (matched : list Row)
    (zhvi_series : list cell) (overall_min_val overall_max_val : number)
  : Animation :=
  let frames :=
    map (render zip_code_str (location_info matched) (values zhvi_series)
                (y_limits overall_min_val overall_max_val))
        (frame_indices (Py.len zhvi_series)) in
  mkAnimation frames (duration_per_frame_seconds (Py.len frames)).

(** ** [generate_zhvi_animation] (lines 39-175) *)

Definition generate_zhvi_animation (zip_code_str : string) (w : World)
  : result * World :=
  let '(ok, w) :=
    match csv_file w with
    | Some _ => (true, w)
    | None => download_data w
    end in
  if negb ok then (Returned, print [MsgDownloadFailedExiting] w)
  else
    let w := print [MsgLoading] w in
    match csv_file w with
    | Some (Table df) =>
        match series_extractor zip_code_str df with
        | Abort ms => (Returned, print ms w)
        | Crash e => (Raised e, w)
        | Extracted matched zhvi_series =>
            animate zip_code_str matched zhvi_series w
        end
    | Some Unreadable | None => (Returned, print [MsgReadError] w)
    end.

(** The run of [generate_zhvi_animation zip_code_str] from [w] wrote the
    animation [a] under the file name [name]. *)
Definition wrote (zip_code_str : string) (w : World) (name : string)
    (a : Animation) : Prop :=
  gif_files (snd (generate_zhvi_animation zip_code_str w))
  = (name, a) :: gif_files w.

(** One run of the script after the other, each for one identifier, in the
    same working directory. *)
Fixpoint run_all (zip_codes : list string) (w : World) : World :=
  match zip_codes with
  | [] => w
  | z :: rest => run_all rest (snd (generate_zhvi_animation z w))
  end.

(** The four conditions under which the specification has the series
    extractor fail: the identifier is no integer, no row has it as
    [RegionName], no header is a date, or every cell of the matched rows
    under a date header is null. *)
Definition spec_extractor_fails (zip_code_str : string) (df : DataFrame)
  : Prop :=
  match Py.int zip_code_str with
  | None => True
  | Some zip_code_int =>
      zip_data_row zip_code_int df = []
      \/ date_columns df = []
      \/ (forall r c, In r (zip_data_row zip_code_int df) ->
                      In c (date_columns df) -> at_column r c = None)
  end.

(** ** The script's entry point (lines 177-193) *)

(** What [input()] does: it returns the line typed (without its newline),
    raises [RuntimeError] where no standard input is available, or raises
    [EOFError] at the end of the input. *)
Inductive stdin_event : Type :=
| Typed (line : string)
| NoStdin
| EndOfInput.

(** The lines the entry point prints itself. *)
Inductive main_message : Type :=
| MainBanner
| MainRule
| MainNoZip
| MainNoStdin
| MainHint.

(** How the process ends: normally, or with the traceback of an exception
    that [except RuntimeError] does not catch.  (The run as modelled raises
    no [RuntimeError]; one raised by the plotting library is outside the
    model.) *)
Inductive main_exit : Type :=
| Finished
| Uncaught (e : exn)
| UncaughtEOF.

Definition main (ev : stdin_event) (w : World)
  : main_exit * list main_message * World :=
  let banner := [MainBanner; MainRule] in
  match ev with
  | Typed line =>
      let zip_code_to_animate := Py.strip line in
      match zip_code_to_animate with
      | EmptyString => (Finished, banner ++ [MainNoZip], w)
      | _ =>
          let '(r, w') := generate_zhvi_animation zip_code_to_animate w in
          (match r with
           | Returned => Finished
           | Raised e => Uncaught e
           end, banner, w')
      end
  | NoStdin => (Finished, banner ++ [MainNoStdin; MainHint], w)
  | EndOfInput => (UncaughtEOF, banner, w)
  end.

(** [w] with the lines [ms] printed after its console output and the files
    [g] written over its animation files. *)
Definition extend (w : World) (ms : list message)
    (g : list (string * Animation)) : World :=
  mkWorld (csv_file w) (remote w) (net_calls w) (stdout w ++ ms)
          (g ++ gif_files w).

(** The playing time of an animation whose frames all last [duration a]. *)
Definition playback (a : Animation) : Q :=
  (inject_Z (Py.len (frames a)) * duration a)%Q.

(** Frame [f] shows the point of index [j] of the series: the point is
    among those the frame plots. *)
Definition shows (f : Frame) (j : Z) : Prop :=
  0 <= j < Py.len (plotted f).

(** The characters a header accepted by [strptime] is made of. *)
Definition date_char (c : ascii) : bool :=
  Py.is_digit c || Ascii.eqb c "-" || Ascii.eqb c " ".

(** Matching [s] has consumed between [lo] and [hi] characters, all of them
    date characters, and left [r]. *)
Definition consumed (lo hi : nat) (s r : string) : Prop :=
  exists p,
    s = (p ++ r)%string
    /\ (lo <= String.length p <= hi)%nat
    /\ forallb date_char (list_ascii_of_string p) = true.

(** [p] is one of the [texts] of the number [v], and [v] lies between [lo]
    and [hi]. *)
Definition text_of (texts : Z -> list string) (lo hi : Z) (p : string)
    (v : Z) : bool :=
  existsb (String.eqb p) (texts v) && (lo <=? v) && (v <=? hi).

(** ** Sample data *)

Module Sample.

Definition months2 : list string := ["2020-01-31"; "2020-02-29"].

Definition header (months : list string) : list string :=
  ["RegionID"; "RegionName"; "City"; "State"] ++ months.

Definition springfield (v : string -> cell) : Row :=
  mkRow 12345 "Springfield" "IL" v.

Definition allston (v : string -> cell) : Row :=
  mkRow 2134 "Boston" "MA" v.

Definition all_null : string -> cell := fun _ => None.
Definition flat (v : number) : string -> cell := fun _ => Some v.
Definition rising : string -> cell :=
  fun c => if String.eqb c "2020-01-31"
           then Some (Float64 100) else Some (Float64 300).

Definition df (months : list string) (v : string -> cell) : DataFrame :=
  mkDataFrame (header months) [springfield v].

(** A working directory holding the file content [c], if any, with the
    network down. *)
Definition world (c : option FileContent) : World :=
  mkWorld c (fun _ => RequestFailed) 0 [] [].

(** A working directory without the dataset file, with a server that
    delivers the two-month table. *)
Definition fresh : World :=
  mkWorld None (fun _ => Served (Table (df months2 rising))) 0 [] [].

(** A working directory with the one-row table of region 02134. *)
Definition boston : World :=
  world (Some (Table (mkDataFrame (header months2) [allston rising]))).

(** A working directory with the one-row table of region 12345 whose
    cells are given by [v]. *)
Definition cached (v : string -> cell) : World :=
  world (Some (Table (df months2 v))).

(** The row with [a] under the first month and [b] under the others. *)
Definition first_then (a b : number) : string -> cell :=
  fun c => if String.eqb c "2020-01-31" then Some a else Some b.

(** The smallest positive [float64], printed [5e-324]. *)
Definition tiny : number := Float64 0x1p-1074.

Definition int64_low : number := Int64 (-9000000000000000000).
Definition int64_high : number := Int64 9000000000000000000.

End Sample.

(** * Properties *)

(** ** The models of [int] and [strptime] *)

Example int_examples :
  map Py.int ["12345"; "02134"; " 42 "; "-7"; "+7"; "1_000"; "abcde"; "";
              "12.5"; "1__0"; "_1"; "1_"; "+ 1"; "12 3"]
  = [Some 12345; Some 2134; Some 42; Some (-7); Some 7; Some 1000; None; None;
     None; None; None; None; None; None].
Proof. reflexivity. Qed.

Example strptime_examples :
  map Py.strptime_Ymd
      ["2020-01-31"; "2000-02-29"; "1900-02-29"; "2021-02-29"; "2020-02-30";
       "0000-01-01"; "2020-13-01"; "2020-10-00"; "2020-01-311"; "2020-01-01 ";
       "RegionName"; "City"; "2020-01"; "2020-1-5"; "2020-01- 5"]
  = [Some (2020, 1, 31); Some (2000, 2, 29); None; None; None;
     None; None; None; None; None;
     None; None; None; Some (2020, 1, 5); Some (2020, 1, 5)].
Proof. reflexivity. Qed.

(** A boolean property checked on [lo], [lo + 1], ..., [lo + n - 1] holds
    on every integer of that interval. *)
Lemma forallb_interval (P : Z -> bool) (lo : Z) (n : nat) :
  forallb P (map (fun k => lo + Z.of_nat k) (seq 0 n)) = true ->
  forall x, lo <= x < lo + Z.of_nat n -> P x = true.
Proof.
  intros Hall x Hx. rewrite forallb_forall in Hall. apply Hall.
  apply in_map_iff. exists (Z.to_nat (x - lo)). split; [lia|].
  apply in_seq. lia.
Qed.

Lemma digit_char_ok (n : Z) :
  0 <= n <= 9 ->
  Py.is_digit (Py.digit_char n) = true /\ Py.digit_value (Py.digit_char n) = n.
Proof.
  intros H.
  pose proof (forallb_interval
    (fun k => Py.is_digit (Py.digit_char k)
              && (Py.digit_value (Py.digit_char k) =? k))
    0 10 eq_refl n ltac:(lia)) as Hk.
  apply andb_true_iff in Hk. destruct Hk as [Hd Hv].
  apply Z.eqb_eq in Hv. now split.
Qed.

Lemma match_Y_digits (a b c d : Z) (rest : string) :
  0 <= a <= 9 -> 0 <= b <= 9 -> 0 <= c <= 9 -> 0 <= d <= 9 ->
  Py.match_Y (Py.two_digits (10 * a + b) (Py.two_digits (10 * c + d) rest))
  = [(1000 * a + 100 * b + 10 * c + d, rest)].
Proof.
  intros Ha Hb Hc Hd. unfold Py.two_digits, Py.match_Y.
  replace ((10 * a + b) / 10) with a by (apply Z.div_unique with b; lia).
  replace ((10 * a + b) mod 10) with b by (apply Z.mod_unique with a; lia).
  replace ((10 * c + d) / 10) with c by (apply Z.div_unique with d; lia).
  replace ((10 * c + d) mod 10) with d by (apply Z.mod_unique with c; lia).
  destruct (digit_char_ok a Ha) as [-> ->].
  destruct (digit_char_ok b Hb) as [-> ->].
  destruct (digit_char_ok c Hc) as [-> ->].
  destruct (digit_char_ok d Hd) as [-> ->].
  reflexivity.
Qed.

Lemma match_md_padded (m d : Z) :
  1 <= m <= 12 -> 1 <= d <= 31 ->
  hd_error (Py.match_md
              (String "-" (Py.two_digits m
                 (String "-" (Py.two_digits d EmptyString)))))
  = Some (m, d, EmptyString).
Proof.
  intros Hm Hd.
  pose (ok := fun m' d' =>
          match hd_error (Py.match_md
                  (String "-" (Py.two_digits m'
                     (String "-" (Py.two_digits d' EmptyString))))) with
          | Some (m1, d1, EmptyString) => (m1 =? m') && (d1 =? d')
          | _ => false
          end).
  assert (Hall : forallb (fun m' =>
            forallb (ok m') (map (fun k => 1 + Z.of_nat k) (seq 0 31)))
            (map (fun k => 1 + Z.of_nat k) (seq 0 12)) = true)
    by (vm_compute; reflexivity).
  pose proof (forallb_interval _ 1 12 Hall m ltac:(lia)) as Hrow.
  pose proof (forallb_interval _ 1 31 Hrow d ltac:(lia)) as Hok.
  unfold ok in Hok.
  destruct (hd_error _) as [[[m1 d1] [|? ?]]|]; try discriminate.
  apply andb_true_iff in Hok. destruct Hok as [H1 H2].
  apply Z.eqb_eq in H1, H2. now subst.
Qed.

(** Every calendar date written in the form [YYYY-MM-DD] is accepted by
    [strptime] and read back as itself. *)
Lemma strptime_accepts_iso_dates (y m d : Z) :
  Py.valid_date y m d = true ->
  Py.strptime_Ymd (Py.spec_iso_date y m d) = Some (y, m, d).
Proof.
  intros Hv. pose proof Hv as Hv'. unfold Py.valid_date in Hv'.
  repeat (apply andb_true_iff in Hv'; destruct Hv' as [Hv' ?]).
  assert (Hd31 : Py.days_in_month y m <= 31).
  { unfold Py.days_in_month.
    destruct (m =? 2); [destruct (Py.is_leap y); lia|].
    destruct ((m =? 4) || (m =? 6) || (m =? 9) || (m =? 11)); lia. }
  assert (Hy : 1 <= y <= 9999) by lia.
  assert (Hm : 1 <= m <= 12) by lia.
  assert (Hd : 1 <= d <= 31) by lia.
  unfold Py.strptime_Ymd, Py.match_Ymd, Py.spec_iso_date.
  pose proof (Z.div_mod y 100 ltac:(lia)) as Hy100.
  pose proof (Z.mod_pos_bound y 100 ltac:(lia)) as Hyr.
  assert (0 <= y / 100 <= 99).
  { split; [apply Z.div_pos; lia|]. apply Z.lt_succ_r.
    apply Z.div_lt_upper_bound; lia. }
  pose proof (Z.div_mod (y / 100) 10 ltac:(lia)) as Hab.
  pose proof (Z.mod_pos_bound (y / 100) 10 ltac:(lia)).
  pose proof (Z.div_mod (y mod 100) 10 ltac:(lia)) as Hcd.
  pose proof (Z.mod_pos_bound (y mod 100) 10 ltac:(lia)).
  assert (0 <= y / 100 / 10 <= 9).
  { split; [apply Z.div_pos; lia|]. apply Z.lt_succ_r.
    apply Z.div_lt_upper_bound; lia. }
  assert (0 <= y mod 100 / 10 <= 9).
  { split; [apply Z.div_pos; lia|]. apply Z.lt_succ_r.
    apply Z.div_lt_upper_bound; lia. }
  rewrite Hab at 1. rewrite Hcd at 1.
  rewrite match_Y_digits by lia.
  cbn [flat_map]. rewrite app_nil_r.
  pose proof (match_md_padded m d Hm Hd) as Hmd.
  destruct (Py.match_md _) as [|p tl]; [discriminate|].
  injection Hmd as ->. cbn [map].
  replace (1000 * (y / 100 / 10) + 100 * ((y / 100) mod 10)
           + 10 * (y mod 100 / 10) + (y mod 100) mod 10) with y by lia.
  now rewrite Hv.
Qed.

(** ** The [range] loop *)

Section RangeLoop.

Variables (stop step : Z).
Hypothesis step_pos : 0 < step.

Lemma range_loop_sound (fuel : nat) (i x : Z) :
  In x (Py.range_loop fuel i stop step) ->
  i <= x < stop /\ (x - i) mod step = 0.
Proof.
  revert i. induction fuel as [|fuel IH]; intros i; simpl; [tauto|].
  destruct (Z.ltb_spec i stop) as [Hlt|Hge]; simpl; [|tauto].
  intros [<-|Hin].
  - rewrite Z.sub_diag, Z.mod_0_l by lia. lia.
  - apply IH in Hin. destruct Hin as [Hr Hm]. split; [lia|].
    replace (x - i) with (x - (i + step) + 1 * step) by ring.
    now rewrite Z.mod_add by lia.
Qed.

Lemma range_loop_complete (fuel : nat) (i x : Z) :
  stop - i <= Z.of_nat fuel ->
  i <= x < stop -> (x - i) mod step = 0 ->
  In x (Py.range_loop fuel i stop step).
Proof.
  revert i. induction fuel as [|fuel IH]; intros i Hfuel Hr Hm; [lia|].
  simpl. destruct (Z.ltb_spec i stop) as [Hlt|Hge]; [|lia].
  destruct (Z.eq_dec x i) as [->|Hne]; [now left|right].
  assert (Hstep : step <= x - i).
  { apply Z.mod_divide in Hm; [|lia]. destruct Hm as [q Hq].
    assert (0 < q) by nia. nia. }
  apply IH; [lia|lia|].
  replace (x - (i + step)) with (x - i + (-1) * step) by ring.
  now rewrite Z.mod_add by lia.
Qed.

Lemma range_loop_sorted (fuel : nat) (i : Z) :
  StronglySorted Z.lt (Py.range_loop fuel i stop step).
Proof.
  revert i. induction fuel as [|fuel IH]; intros i; simpl; [constructor|].
  destruct (i <? stop); constructor; [apply IH|].
  apply Forall_forall. intros x Hin.
  apply range_loop_sound in Hin. lia.
Qed.

Lemma range_loop_length (fuel : nat) (i : Z) :
  stop - i <= Z.of_nat fuel ->
  Z.of_nat (List.length (Py.range_loop fuel i stop step))
  = Z.max 0 ((stop - i + step - 1) / step).
Proof.
  revert i. induction fuel as [|fuel IH]; intros i Hfuel.
  - simpl. assert ((stop - i + step - 1) / step <= 0); [|lia].
    apply Z.lt_succ_r, Z.div_lt_upper_bound; lia.
  - cbn [Py.range_loop]. destruct (Z.ltb_spec i stop) as [Hlt|Hge].
    + cbn [List.length]. rewrite Nat2Z.inj_succ, IH by lia.
      replace (stop - (i + step) + step - 1) with (stop - i - 1) by ring.
      replace (stop - i + step - 1) with (stop - i - 1 + 1 * step) by ring.
      rewrite Z.div_add by lia.
      assert (0 <= (stop - i - 1) / step) by (apply Z.div_pos; lia).
      lia.
    + simpl. assert ((stop - i + step - 1) / step <= 0); [|lia].
      apply Z.lt_succ_r, Z.div_lt_upper_bound; lia.
Qed.

End RangeLoop.

(** The last element of an increasing list is its greatest one. *)
Lemma last_sorted_max (l : list Z) (x d : Z) :
  StronglySorted Z.lt l -> In x l -> (forall y, In y l -> y <= x) ->
  last l d = x.
Proof.
  induction l as [|a l IH]; intros Hs Hin Hmax; [destruct Hin|].
  inversion Hs as [|? ? Hs' Hall]; subst.
  destruct l as [|b l'].
  - destruct Hin as [<-|[]]. reflexivity.
  - change (last (b :: l') d = x). apply IH; auto.
    + destruct Hin as [<-|Hin]; auto.
      rewrite Forall_forall in Hall.
      specialize (Hall b (or_introl eq_refl)).
      specialize (Hmax b (or_intror (or_introl eq_refl))). lia.
    + intros y Hy. apply Hmax. now right.
Qed.

(** ** The frame sampler *)

Lemma frame_step_pos (N : Z) : 1 <= frame_step N.
Proof. unfold frame_step. destruct (N >? max_frames_for_gif); lia. Qed.

(** The loop header never raises: the step is positive, and the fuel of the
    model covers the whole range. *)
Lemma frame_indices_range (N : Z) :
  Py.range 0 N (frame_step N) = Some (frame_indices N).
Proof.
  unfold frame_indices, Py.range. pose proof (frame_step_pos N).
  destruct (Z.eqb_spec (frame_step N) 0); [lia|].
  destruct (Z.ltb_spec 0 (frame_step N)); [reflexivity|lia].
Qed.

Lemma frame_indices_loop (N : Z) :
  frame_indices N = Py.range_loop (Z.to_nat N) 0 N (frame_step N).
Proof.
  pose proof (frame_indices_range N) as H. unfold Py.range in H.
  pose proof (frame_step_pos N).
  destruct (Z.eqb_spec (frame_step N) 0); [lia|].
  destruct (Z.ltb_spec 0 (frame_step N)); [|lia].
  rewrite Z.sub_0_r in H. congruence.
Qed.

Lemma frame_indices_In (N x : Z) :
  In x (frame_indices N) <-> 0 <= x < N /\ x mod frame_step N = 0.
Proof.
  rewrite frame_indices_loop. pose proof (frame_step_pos N). split.
  - intros Hin. apply range_loop_sound in Hin; [|lia].
    now rewrite Z.sub_0_r in Hin.
  - intros [Hr Hm]. apply range_loop_complete; try lia.
    now rewrite Z.sub_0_r.
Qed.

Lemma frame_indices_sorted (N : Z) : StronglySorted Z.lt (frame_indices N).
Proof.
  rewrite frame_indices_loop. apply range_loop_sorted.
  pose proof (frame_step_pos N). lia.
Qed.

Lemma frame_indices_len (N : Z) :
  1 <= N -> Py.len (frame_indices N) = (N - 1) / frame_step N + 1.
Proof.
  intros HN. unfold Py.len. rewrite frame_indices_loop.
  pose proof (frame_step_pos N) as Hs.
  rewrite range_loop_length by lia.
  replace (N - 0 + frame_step N - 1) with (N - 1 + 1 * frame_step N) by ring.
  rewrite Z.div_add by lia.
  assert (0 <= (N - 1) / frame_step N) by (apply Z.div_pos; lia). lia.
Qed.

(** What the sampler does guarantee: every point is a frame up to the
    budget, and above it the frame count stays below twice the budget. *)
Lemma frame_count_within_budget (N : Z) :
  1 <= N <= max_frames_for_gif -> Py.len (frame_indices N) = N.
Proof.
  intros HN. rewrite frame_indices_len by lia.
  unfold frame_step. destruct (Z.gtb_spec N max_frames_for_gif); [lia|].
  rewrite Z.div_1_r. lia.
Qed.

Lemma frame_count_below_twice_budget (N : Z) :
  1 <= N -> Py.len (frame_indices N) < 2 * max_frames_for_gif.
Proof.
  intros HN. rewrite frame_indices_len by lia.
  unfold frame_step, max_frames_for_gif.
  destruct (Z.gtb_spec N 150) as [Hgt|Hle].
  - assert (Hq : 1 <= N / 150) by (apply Z.div_le_lower_bound; lia).
    rewrite Z.max_r by lia.
    pose proof (Z.mod_pos_bound N 150 ltac:(lia)) as Hm.
    pose proof (Z.div_mod N 150 ltac:(lia)) as Hd.
    assert ((N - 1) / (N / 150) < 299); [|lia].
    apply Z.div_lt_upper_bound; lia.
  - rewrite Z.div_1_r. lia.
Qed.

Section RangeClosedForm.

Variables (stop step : Z).
Hypothesis step_pos : 0 < step.

(** The loop visits [i], [i + step], [i + 2 * step], ... *)
Lemma range_loop_closed (fuel : nat) (i : Z) :
  stop - i <= Z.of_nat fuel ->
  Py.range_loop fuel i stop step
  = map (fun k => i + Z.of_nat k * step)
        (seq 0 (List.length (Py.range_loop fuel i stop step))).
Proof.
  revert i. induction fuel as [|fuel IH]; intros i Hfuel; [reflexivity|].
  cbn [Py.range_loop]. destruct (i <? stop); [|reflexivity].
  cbn [List.length seq map]. f_equal; [lia|].
  rewrite <- seq_shift, map_map.
  rewrite IH at 1 by lia.
  apply map_ext. intros k. lia.
Qed.

End RangeClosedForm.

(** C1: at the series length 151 (and at 301, the length of a dataset of
    25 years and one month) the sampler yields 151 frame indices, one more
    than [max_frames_for_gif]. *)
Theorem frame_count_exceeds_budget :
  frame_step 151 = 1
  /\ Py.len (frame_indices 151) = 151
  /\ frame_step 301 = 2
  /\ Py.len (frame_indices 301) = 151
  /\ ~ Py.len (frame_indices 151) <= max_frames_for_gif.
Proof.
  assert (H1 : Py.len (frame_indices 151) = 151) by (vm_compute; reflexivity).
  repeat split; try (vm_compute; reflexivity).
  rewrite H1. unfold max_frames_for_gif. lia.
Qed.

(** C2: for a series of [N >= 1] points the stride is the specified one
    ([1] up to the budget of 150, [max(1, N / 150)] above it); the loop
    visits exactly the multiples of the stride below [N], in increasing
    order and starting with 0; up to the budget the stride is 1 and
    every index [0 .. N-1] is visited. *)
Theorem frame_sampler_stride_and_indices (N : Z) (HN : 1 <= N) :
  frame_step N = spec_stride N 150
  /\ (forall x, In x (frame_indices N) <->
                0 <= x < N /\ exists k, 0 <= k /\ x = k * frame_step N)
  /\ frame_indices N
     = map (fun k => Z.of_nat k * frame_step N)
           (seq 0 (List.length (frame_indices N)))
  /\ StronglySorted Z.lt (frame_indices N)
  /\ hd_error (frame_indices N) = Some 0
  /\ (N <= 150 ->
      frame_step N = 1
      /\ frame_indices N = map Z.of_nat (seq 0 (Z.to_nat N))).
Proof.
  pose proof (frame_step_pos N) as Hs.
  assert (Hclosed : frame_indices N
     = map (fun k => Z.of_nat k * frame_step N)
           (seq 0 (List.length (frame_indices N)))).
  { rewrite frame_indices_loop.
    rewrite range_loop_closed at 1 by lia. apply map_ext. intros; lia. }
  assert (Hlen := frame_indices_len N HN). unfold Py.len in Hlen.
  assert (Hstride : frame_step N = spec_stride N 150).
  { unfold frame_step, spec_stride, max_frames_for_gif.
    destruct (Z.gtb_spec N 150), (Z.leb_spec N 150); lia. }
  split; [exact Hstride|].
  split.
  { intros x. rewrite frame_indices_In. split; intros [Hr Hm]; split; auto.
    - exists (x / frame_step N). split; [apply Z.div_pos; lia|].
      pose proof (Z.div_mod x (frame_step N) ltac:(lia)). lia.
    - destruct Hm as [k [_ ->]]. apply Z.mod_mul. lia. }
  split; [exact Hclosed|].
  split; [apply frame_indices_sorted|].
  split.
  { rewrite Hclosed.
    assert (0 <= (N - 1) / frame_step N) by (apply Z.div_pos; lia).
    destruct (List.length (frame_indices N)); [lia|reflexivity]. }
  intros HB.
  assert (H1 : frame_step N = 1).
  { rewrite Hstride. unfold spec_stride. destruct (Z.leb_spec N 150); lia. }
  split; [exact H1|].
  rewrite Hclosed. rewrite H1, Z.div_1_r in Hlen.
  replace (List.length (frame_indices N)) with (Z.to_nat N) by lia.
  apply map_ext. intros k. rewrite H1. lia.
Qed.

Lemma frame_sampler_stride_and_indices_witness :
  frame_step 4 = spec_stride 4 150 /\ frame_indices 4 = [0; 1; 2; 3].
Proof.
  destruct (frame_sampler_stride_and_indices 4 ltac:(lia))
    as (Hs & _ & _ & _ & _ & Hall).
  split; [exact Hs|].
  destruct (Hall ltac:(lia)) as [_ ->]. reflexivity.
Defined.

(** C10: for a series of [N >= 1] points sampled with stride [S], the last
    index the loop visits is [(N - 1) - ((N - 1) mod S)], so the final
    point [N - 1] is a frame exactly when [S] divides [N - 1]; with 300
    points the stride is 2 and the last frame is index 298, not 299. *)
Theorem last_sampled_index (N : Z) (HN : 1 <= N) :
  last (frame_indices N) 0 = (N - 1) - (N - 1) mod frame_step N
  /\ (In (N - 1) (frame_indices N) <-> (frame_step N | N - 1))
  /\ frame_step 300 = 2
  /\ last (frame_indices 300) 0 = 298
  /\ ~ In 299 (frame_indices 300).
Proof.
  pose proof (frame_step_pos N) as Hs.
  pose proof (Z.mod_pos_bound (N - 1) (frame_step N) ltac:(lia)) as Hm.
  pose proof (Z.div_mod (N - 1) (frame_step N) ltac:(lia)) as Hd.
  pose proof (Z.mod_le (N - 1) (frame_step N) ltac:(lia) ltac:(lia)) as Hle.
  split.
  { apply last_sorted_max.
    - apply frame_indices_sorted.
    - apply frame_indices_In. split; [lia|].
      replace (N - 1 - (N - 1) mod frame_step N)
        with ((N - 1) / frame_step N * frame_step N) by lia.
      apply Z.mod_mul. lia.
    - intros y Hy. apply frame_indices_In in Hy. destruct Hy as [Hr Hy].
      apply Z.mod_divide in Hy; [|lia]. destruct Hy as [q ->].
      assert (q <= (N - 1) / frame_step N); [|nia].
      apply Z.div_le_lower_bound; lia. }
  split.
  { rewrite frame_indices_In, <- Z.mod_divide by lia.
    split; [tauto|]. intros H. split; [lia|exact H]. }
  split; [reflexivity|].
  split; [vm_compute; reflexivity|].
  rewrite frame_indices_In. vm_compute. intros [_ H]. discriminate H.
Qed.

Lemma last_sampled_index_witness :
  last (frame_indices 301) 0 = 300 /\ In 300 (frame_indices 301).
Proof.
  destruct (last_sampled_index 301 ltac:(lia)) as (Hl & Hin & _).
  split; [exact Hl|].
  apply Hin. exists 150. reflexivity.
Defined.


(** ** Minimum, maximum and padding *)

#[local] Open Scope Q_scope.

Lemma non_null_nil (vs : list cell) :
  non_null vs = [] -> forallb isnull vs = true.
Proof.
  induction vs as [|[v|] vs IH]; cbn; [reflexivity|discriminate|exact IH].
Qed.

(** Converting the whole numbers of a [float64] series moves no cell and
    makes none null. *)
Lemma values_isnull (vs : list cell) :
  forallb isnull (values vs) = forallb isnull vs.
Proof.
  unfold values. destruct (forallb is_int64 vs); [reflexivity|].
  induction vs as [|[v|] vs IH]; cbn; [reflexivity|reflexivity|exact IH].
Qed.

Lemma values_length (vs : list cell) :
  List.length (values vs) = List.length vs.
Proof.
  unfold values. destruct (forallb is_int64 vs); [reflexivity|].
  apply length_map.
Qed.

(** A series that is not all null holds a number. *)
Lemma not_all_null_has_number (vs : list cell) :
  forallb isnull vs = false -> exists v, In (Some v) vs.
Proof.
  induction vs as [|[v|] vs IH]; cbn; [discriminate| |].
  - intros _. exists v. now left.
  - intros H. destruct (IH H) as [v Hv]. exists v. now right.
Qed.

(** A series with a number has a minimum and a maximum. *)
Lemma series_min_max_defined (vs : list cell) :
  forallb isnull vs = false ->
  exists mn mx, series_min vs = Some mn /\ series_max vs = Some mx.
Proof.
  intros H. unfold series_min, series_max.
  destruct (non_null (values vs)) as [|q rest] eqn:E; [|eauto].
  apply non_null_nil in E. rewrite values_isnull in E. congruence.
Qed.

(** ** Steps 5 and 6 *)

Lemma print_world (ms : list message) (w : World) :
  csv_file (print ms w) = csv_file w
  /\ net_calls (print ms w) = net_calls w
  /\ gif_files (print ms w) = gif_files w
  /\ remote (print ms w) = remote w.
Proof. repeat split. Qed.

(** With a minimum and a maximum at hand, [animate] returns after one
    [mimsave] and touches neither the dataset file nor the network. *)
Lemma animate_writes (zip_code_str : string) (matched : list Row)
    (series : list cell) (w : World) (mn mx : number) :
  series_min series = Some mn -> series_max series = Some mx ->
  let '(r, w') := animate zip_code_str matched series w in
  r = Returned
  /\ gif_files w'
     = (gif_filename zip_code_str,
        animation_of zip_code_str matched series mn mx) :: gif_files w
  /\ csv_file w' = csv_file w
  /\ net_calls w' = net_calls w.
Proof.
  intros Hmin Hmax. unfold animate. rewrite Hmin, Hmax.
  destruct (Py.len series >? max_frames_for_gif)%Z; repeat split.
Qed.

(** C5: the fallback of line 126 does not keep the y axis from being
    degenerate, and the padding is not always 5% of [max - min] when the
    values differ.  Both show on series of very small numbers, where the
    [float64] products of lines 124 and 126 round to zero.
    - The row whose two cells hold [0x1p-1074] (the smallest positive
      [float64], printed [5e-324]): [(max - min) * 0.05] is [0.0], the
      fallback [min * 0.1] is [0.0] again, and both limits given to
      [set_ylim] are [0x1p-1074] in every frame.
    - The row with the cells [0.0] and [0x1p-1074]: the values differ, yet
      [(max - min) * 0.05] is [0.0], so the padding is the fallback
      [10000] and the limits are [-10000.0] and [10000.0]. *)
Theorem y_padding_fallback_underflows :
  (exists a,
     wrote "12345" (Sample.cached (Sample.flat Sample.tiny))
           "zhvi_animation_12345.gif" a
     /\ series_min [Some Sample.tiny; Some Sample.tiny] = Some Sample.tiny
     /\ series_max [Some Sample.tiny; Some Sample.tiny] = Some Sample.tiny
     /\ y_padding Sample.tiny Sample.tiny = Float64 0
     /\ map ylim (frames a)
        = [(Sample.tiny, Sample.tiny); (Sample.tiny, Sample.tiny)])
  /\ (exists a,
        wrote "12345"
              (Sample.cached (Sample.first_then (Float64 0) Sample.tiny))
              "zhvi_animation_12345.gif" a
        /\ series_min [Some (Float64 0); Some Sample.tiny] = Some (Float64 0)
        /\ series_max [Some (Float64 0); Some Sample.tiny] = Some Sample.tiny
        /\ np_leb Sample.tiny (Float64 0) = false
        /\ np_mul_float (np_sub Sample.tiny (Float64 0)) literal_0_05
           = Float64 0
        /\ y_padding (Float64 0) Sample.tiny = Int64 10000
        /\ map ylim (frames a)
           = [(Float64 (-10000), Float64 10000);
              (Float64 (-10000), Float64 10000)]).
Proof.
  split.
  - eexists. split; [reflexivity|]. repeat split.
  - eexists. split; [reflexivity|]. repeat split.
Qed.

(** C4: the limits do not always enclose the plotted values.
    - The row whose two cells hold [-100.0]: the series is constant, the
      fallback padding is [min * 0.1 = -10.0], and every frame is drawn
      with the lower limit [-90.0] above and the upper limit [-110.0] below
      the plotted [-100.0].
    - The row with the [int64] cells [-9000000000000000000] and
      [9000000000000000000]: [max - min] wraps around to
      [-446744073709551616], the padding is negative, and both limits lie
      strictly between the two plotted values.
    In both runs all frames are drawn with the same limits. *)
Theorem y_limits_leave_values_outside :
  (exists a,
     wrote "12345" (Sample.cached (Sample.flat (Float64 (-100))))
           "zhvi_animation_12345.gif" a
     /\ map plotted (frames a)
        = [[Some (Float64 (-100))];
           [Some (Float64 (-100)); Some (Float64 (-100))]]
     /\ y_padding (Float64 (-100)) (Float64 (-100)) = Float64 (-10)
     /\ map ylim (frames a)
        = [(Float64 (-90), Float64 (-110));
           (Float64 (-90), Float64 (-110))]
     /\ np_leb (Float64 (-90)) (Float64 (-100)) = false
     /\ np_leb (Float64 (-100)) (Float64 (-110)) = false)
  /\ (exists a lo hi,
        wrote "12345"
              (Sample.cached (Sample.first_then Sample.int64_low
                                                Sample.int64_high))
              "zhvi_animation_12345.gif" a
        /\ map plotted (frames a)
           = [[Some Sample.int64_low];
              [Some Sample.int64_low; Some Sample.int64_high]]
        /\ np_sub Sample.int64_high Sample.int64_low
           = Int64 (-446744073709551616)
        /\ y_padding Sample.int64_low Sample.int64_high
           = Float64 (-0x1.3d6e460bcb334p+54)
        /\ map ylim (frames a) = [(lo, hi); (lo, hi)]
        /\ lo = Float64 (-0x1.f25c42fd7e44dp+62)
        /\ hi = Float64 0x1.f25c42fd7e44dp+62
        /\ np_leb lo Sample.int64_low = false
        /\ np_leb Sample.int64_high hi = false).
Proof.
  split.
  - eexists. split; [reflexivity|]. repeat split.
  - eexists _, _, _. split; [reflexivity|]. repeat split.
Qed.

(** ** The run as a whole *)

Lemma cons_neq_self {A : Type} (x : A) (l : list A) : x :: l <> l.
Proof.
  intros H. apply (f_equal (@List.length A)) in H. cbn in H. lia.
Qed.

Lemma animate_preserves (zip_code_str : string) (matched : list Row)
    (series : list cell) (w : World) :
  csv_file (snd (animate zip_code_str matched series w)) = csv_file w
  /\ net_calls (snd (animate zip_code_str matched series w)) = net_calls w.
Proof.
  unfold animate.
  destruct (series_min series), (series_max series),
    (Py.len series >? max_frames_for_gif)%Z; split; reflexivity.
Qed.

(** What the extractor hands on has a number in it. *)
Lemma extracted_series_has_number (zip_code_str : string) (df : DataFrame)
    (matched : list Row) (series : list cell) :
  series_extractor zip_code_str df = Extracted matched series ->
  forallb isnull series = false.
Proof.
  unfold series_extractor.
  destruct (Py.int zip_code_str) as [z|]; [|discriminate].
  destruct (is_empty (zip_data_row z df)); [discriminate|].
  destruct (is_empty (date_columns df)); [discriminate|].
  destruct (squeeze _ _) as [v|vs|n sel]; [discriminate| |].
  - destruct (is_empty vs) eqn:He; [discriminate|]. cbn [orb].
    destruct (forallb isnull vs) eqn:Hn; [discriminate|].
    intros [= _ <-]. exact Hn.
  - destruct (is_empty sel || Nat.eqb n 0); discriminate.
Qed.

(** A run that wrote an animation went through every stage. *)
Lemma generate_wrote_inv (zip_code_str : string) (w : World) (name : string)
    (a : Animation) :
  wrote zip_code_str w name a ->
  exists df matched series mn mx,
    series_extractor zip_code_str df = Extracted matched series
    /\ series_min series = Some mn /\ series_max series = Some mx
    /\ name = gif_filename zip_code_str
    /\ a = animation_of zip_code_str matched series mn mx.
Proof.
  unfold wrote, generate_zhvi_animation.
  assert (Hno : forall w', gif_files w' = gif_files w ->
                  gif_files w' = (name, a) :: gif_files w -> False).
  { intros w' -> H. symmetry in H. exact (cons_neq_self _ _ H). }
  assert (Hmain : forall w1 : World, gif_files w1 = gif_files w ->
    gif_files (snd
      (match csv_file (print [MsgLoading] w1) with
       | Some (Table df) =>
           match series_extractor zip_code_str df with
           | Abort ms => (Returned, print ms (print [MsgLoading] w1))
           | Crash e => (Raised e, print [MsgLoading] w1)
           | Extracted matched zhvi_series =>
               animate zip_code_str matched zhvi_series (print [MsgLoading] w1)
           end
       | _ => (Returned, print [MsgReadError] (print [MsgLoading] w1))
       end)) = (name, a) :: gif_files w ->
    exists df matched series mn mx,
      series_extractor zip_code_str df = Extracted matched series
      /\ series_min series = Some mn /\ series_max series = Some mx
      /\ name = gif_filename zip_code_str
      /\ a = animation_of zip_code_str matched series mn mx).
  { intros w1 Hw1.
    destruct (csv_file (print [MsgLoading] w1)) as [[df|]|];
      try (intros H; exfalso; eapply Hno; [|exact H]; exact Hw1).
    destruct (series_extractor zip_code_str df) as [ms|e|matched series] eqn:Hx;
      try (intros H; exfalso; eapply Hno; [|exact H]; exact Hw1).
    destruct (series_min_max_defined series
                (extracted_series_has_number _ _ _ _ Hx))
      as (mn & mx & Hmin & Hmax).
    pose proof (animate_writes zip_code_str matched series
                  (print [MsgLoading] w1) mn mx Hmin Hmax) as Hw.
    destruct (animate zip_code_str matched series (print [MsgLoading] w1))
      as [r w'].
    destruct Hw as (_ & Hgif & _). cbn [snd]. rewrite Hgif.
    cbn [print gif_files]. rewrite Hw1. intros [= <- <-].
    exists df, matched, series, mn, mx. repeat split; assumption. }
  destruct (csv_file w) as [c|] eqn:Hc.
  - cbn [negb]. apply Hmain. reflexivity.
  - unfold download_data, http_get.
    destruct (remote (print [MsgDownloading] w)
                     (net_calls (print [MsgDownloading] w))) as [|c|c];
      cbn [negb].
    + intros H. exfalso. eapply Hno; [|exact H]. reflexivity.
    + apply Hmain. reflexivity.
    + intros H. exfalso. eapply Hno; [|exact H]. reflexivity.
Qed.

(** ** The dataset cache *)

Lemma generate_cached (zip_code_str : string) (w : World) :
  csv_file w <> None ->
  net_calls (snd (generate_zhvi_animation zip_code_str w)) = net_calls w
  /\ csv_file (snd (generate_zhvi_animation zip_code_str w)) = csv_file w.
Proof.
  intros Hfile. unfold generate_zhvi_animation.
  destruct (csv_file w) as [c|] eqn:Hc; [|congruence].
  cbn [negb print csv_file]. rewrite Hc.
  destruct c as [df|]; [|split; [reflexivity|exact Hc]].
  destruct (series_extractor zip_code_str df) as [ms|e|matched series];
    try (split; [reflexivity|exact Hc]).
  destruct (animate_preserves zip_code_str matched series
              (print [MsgLoading] w)) as [Hcsv Hnet].
  rewrite Hcsv, Hnet. split; [reflexivity|exact Hc].
Qed.

(** C7: when the dataset file exists, a run makes no request and leaves the
    file in place; so any number of further runs, for whatever identifiers,
    makes no request either. *)
Theorem cached_dataset_skips_network (w : World)
    (Hfile : csv_file w <> None) :
  (forall zip_code_str,
     net_calls (snd (generate_zhvi_animation zip_code_str w)) = net_calls w
     /\ csv_file (snd (generate_zhvi_animation zip_code_str w)) = csv_file w)
  /\ (forall zip_codes, net_calls (run_all zip_codes w) = net_calls w).
Proof.
  split; [intros z; now apply generate_cached|].
  intros zips. revert w Hfile.
  induction zips as [|z zips IH]; intros w Hfile; [reflexivity|].
  cbn [run_all].
  destruct (generate_cached z w Hfile) as [Hnet Hcsv].
  rewrite IH; [exact Hnet|]. now rewrite Hcsv.
Qed.

Lemma cached_dataset_skips_network_witness :
  net_calls (snd (generate_zhvi_animation "12345" Sample.fresh)) = 1%nat
  /\ net_calls (run_all ["12345"; "54321"]
                  (snd (generate_zhvi_animation "12345" Sample.fresh)))
     = 1%nat.
Proof.
  split; [reflexivity|].
  destruct (cached_dataset_skips_network
              (snd (generate_zhvi_animation "12345" Sample.fresh))
              ltac:(vm_compute; discriminate)) as [_ Hall].
  rewrite Hall. reflexivity.
Defined.

(** Without the file the run does ask the network, once. *)
Lemma uncached_dataset_downloads (zip_code_str : string) (w : World) :
  csv_file w = None ->
  net_calls (snd (generate_zhvi_animation zip_code_str w)) = S (net_calls w).
Proof.
  intros Hc. unfold generate_zhvi_animation, download_data, http_get.
  rewrite Hc.
  destruct (remote (print [MsgDownloading] w)
                   (net_calls (print [MsgDownloading] w))) as [|c|c];
    cbn [negb]; try reflexivity.
  cbn [print write_csv csv_file].
  destruct c as [df|]; [|reflexivity].
  destruct (series_extractor zip_code_str df) as [ms|e|matched series];
    try reflexivity.
  match goal with
  | |- context [animate ?z ?m ?s ?w0] =>
      destruct (animate_preserves z m s w0) as [_ ->]
  end.
  reflexivity.
Qed.

(** ** The output file name *)

Lemma all_space_chars (s : string) (c : ascii) :
  Py.all_space s = true -> In c (list_ascii_of_string s) ->
  Py.is_space c = true.
Proof.
  induction s as [|a s IH]; cbn; [tauto|].
  intros H [<-|Hin]; apply andb_true_iff in H; destruct H; auto.
Qed.

Lemma int_digits_chars (s : string) (acc : Z) (prev : bool) (z : Z) (c : ascii) :
  Py.int_digits acc prev s = Some z -> In c (list_ascii_of_string s) ->
  Py.is_digit c = true \/ c = "_"%char \/ Py.is_space c = true.
Proof.
  revert acc prev. induction s as [|a s IH]; intros acc prev; cbn; [tauto|].
  destruct (Py.is_digit a) eqn:Hd.
  { intros H [<-|Hin]; [now left|eauto]. }
  destruct (Ascii.eqb_spec a "_") as [->|Hu].
  { destruct prev; [|discriminate]. intros H [<-|Hin]; [now right; left|eauto]. }
  destruct (Py.is_space a) eqn:Hs; [|discriminate].
  destruct prev; [|discriminate]. cbn [andb].
  destruct (Py.all_space s) eqn:Ha; [|discriminate].
  intros _ [<-|Hin]; right; right; [exact Hs|].
  eapply all_space_chars; eassumption.
Qed.

Lemma lstrip_chars (s : string) (c : ascii) :
  In c (list_ascii_of_string s) ->
  Py.is_space c = true \/ In c (list_ascii_of_string (Py.lstrip s)).
Proof.
  induction s as [|a s IH]; cbn; [tauto|].
  destruct (Py.is_space a) eqn:Hs.
  - intros [<-|Hin]; [now left|auto].
  - cbn. tauto.
Qed.

(** What [int] accepts is made of digits, underscores, signs and white
    space only. *)
Lemma int_chars (s : string) (z : Z) (c : ascii) :
  Py.int s = Some z -> In c (list_ascii_of_string s) ->
  Py.is_digit c = true \/ c = "_"%char \/ Py.is_space c = true
  \/ c = "-"%char \/ c = "+"%char.
Proof.
  unfold Py.int. intros H Hin.
  destruct (lstrip_chars s c Hin) as [Hs|Hin']; [tauto|].
  destruct (Py.lstrip s) as [|a s']; [discriminate|].
  assert (Hd : forall acc p t z', Py.int_digits acc p t = Some z' ->
            In c (list_ascii_of_string t) ->
            Py.is_digit c = true \/ c = "_"%char \/ Py.is_space c = true
            \/ c = "-"%char \/ c = "+"%char).
  { intros acc p t z' Ht Hc.
    destruct (int_digits_chars t acc p z' c Ht Hc) as [?|[?|?]]; tauto. }
  destruct (Ascii.eqb_spec a "-") as [->|Hm].
  { destruct Hin' as [<-|Hin']; [tauto|].
    destruct (Py.int_digits 0 false s') eqn:E; [|discriminate]. eauto. }
  destruct (Ascii.eqb_spec a "+") as [->|Hp].
  { destruct Hin' as [<-|Hin']; [tauto|]. eauto. }
  eapply Hd; [exact H|exact Hin'].
Qed.

Lemma list_ascii_of_string_app (s t : string) :
  list_ascii_of_string (s ++ t)
  = (list_ascii_of_string s ++ list_ascii_of_string t)%list.
Proof. induction s as [|a s IH]; cbn; [reflexivity|now rewrite IH]. Qed.

(** C9: a run that writes an animation for the identifier [zip_code_str]
    writes it under the name [zhvi_animation_] + the identifier as given +
    [.gif]; the name holds no path separator, so the file lies in the
    working directory. *)
Theorem gif_named_by_literal_identifier (zip_code_str : string) (w : World)
    (name : string) (a : Animation)
    (Hrun : wrote zip_code_str w name a) :
  name = ("zhvi_animation_" ++ zip_code_str ++ ".gif")%string
  /\ ~ In "/"%char (list_ascii_of_string name)
  /\ ~ In "\"%char (list_ascii_of_string name).
Proof.
  destruct (generate_wrote_inv _ _ _ _ Hrun)
    as (df & matched & series & mn & mx & Hx & _ & _ & -> & _).
  split; [reflexivity|].
  assert (Hint : exists z, Py.int zip_code_str = Some z).
  { unfold series_extractor in Hx.
    destruct (Py.int zip_code_str) as [z|]; [eauto|discriminate]. }
  destruct Hint as [z Hz].
  assert (Hsep : forall c, (c = "/" \/ c = "\")%char ->
            ~ In c (list_ascii_of_string (gif_filename zip_code_str))).
  { intros c Hc. unfold gif_filename.
    rewrite !list_ascii_of_string_app, !in_app_iff.
    intros [Hin|[Hin|Hin]].
    - cbn in Hin. destruct Hc as [-> | ->];
        repeat (destruct Hin as [Hin|Hin]; [discriminate|]); exact Hin.
    - destruct (int_chars _ _ _ Hz Hin) as [H|[H|[H|[H|H]]]];
        destruct Hc as [-> | ->]; discriminate.
    - cbn in Hin. destruct Hc as [-> | ->];
        repeat (destruct Hin as [Hin|Hin]; [discriminate|]); exact Hin. }
  split; apply Hsep; auto.
Qed.

Lemma gif_named_by_literal_identifier_witness :
  Py.int "02134" = Some 2134%Z
  /\ wrote "02134" Sample.boston "zhvi_animation_02134.gif"
           (animation_of "02134" [Sample.allston Sample.rising]
                         [Some (Float64 100); Some (Float64 300)]
                         (Float64 100) (Float64 300))
  /\ "zhvi_animation_02134.gif"
     = ("zhvi_animation_" ++ "02134" ++ ".gif")%string.
Proof.
  assert (Hrun : wrote "02134" Sample.boston "zhvi_animation_02134.gif"
                   (animation_of "02134" [Sample.allston Sample.rising]
                                 [Some (Float64 100); Some (Float64 300)]
                                 (Float64 100) (Float64 300)))
    by reflexivity.
  split; [reflexivity|]. split; [exact Hrun|].
  exact (proj1 (gif_named_by_literal_identifier _ _ _ _ Hrun)).
Defined.

(** ** The series extractor *)

(** An abort of the extractor ends the run: the messages are printed, the
    function returns, and no animation file is written. *)
Lemma extractor_abort_ends_run (zip_code_str : string) (w : World)
    (df : DataFrame) (ms : list message) :
  csv_file w = Some (Table df) ->
  series_extractor zip_code_str df = Abort ms ->
  generate_zhvi_animation zip_code_str w
  = (Returned, print ms (print [MsgLoading] w))
  /\ gif_files (snd (generate_zhvi_animation zip_code_str w)) = gif_files w.
Proof.
  intros Hc Hx. unfold generate_zhvi_animation.
  rewrite Hc. cbn [negb print csv_file]. rewrite Hc, Hx.
  split; reflexivity.
Qed.

Lemma forallb_isnull_map (r : Row) (cols : list string) :
  forallb isnull (map (at_column r) cols) = true <->
  forall c, In c cols -> at_column r c = None.
Proof.
  rewrite forallb_forall. split.
  - intros H c Hc. specialize (H _ (in_map _ _ _ Hc)).
    destruct (at_column r c); [discriminate|reflexivity].
  - intros H x Hx. apply in_map_iff in Hx. destruct Hx as [c [<- Hc]].
    now rewrite (H c Hc).
Qed.

(** X15: on a dataset with unique region codes whose number of date columns
    is not one, the extractor never raises, and it aborts exactly under the
    four specified conditions. *)
Lemma extractor_aborts_iff (zip_code_str : string) (df : DataFrame) :
  List.length (date_columns df) <> 1%nat ->
  (forall z, (List.length (zip_data_row z df) <= 1)%nat) ->
  ((exists ms, series_extractor zip_code_str df = Abort ms)
   <-> spec_extractor_fails zip_code_str df)
  /\ (forall e, series_extractor zip_code_str df <> Crash e).
Proof.
  intros Hcols Huniq. unfold series_extractor, spec_extractor_fails.
  destruct (Py.int zip_code_str) as [z|];
    [|split; [split; eauto|discriminate]].
  specialize (Huniq z).
  destruct (zip_data_row z df) as [|r [|r' rest]]; cbn [is_empty].
  - split; [split; eauto|discriminate].
  - destruct (date_columns df) as [|c [|c' cs]] eqn:Hc; cbn [is_empty].
    + split; [split; eauto|discriminate].
    + cbn in Hcols. congruence.
    + cbn [select map squeeze List.length is_empty orb].
      destruct (forallb isnull (at_column r c :: at_column r c'
                                  :: map (at_column r) cs)) eqn:Hn.
      * split; [|discriminate]. split; [|eauto]. intros _. right; right.
        intros r0 c0 [<-|[]]. revert c0.
        apply (forallb_isnull_map r (c :: c' :: cs)). exact Hn.
      * split; [|discriminate]. split; [intros [ms H]; discriminate|].
        intros [H|[H|H]]; try discriminate. exfalso.
        rewrite <- not_true_iff_false in Hn. apply Hn.
        apply (forallb_isnull_map r (c :: c' :: cs)).
        intros c0 Hc0. apply H; [now left|exact Hc0].
  - cbn in Huniq. lia.
Qed.

(** C6: with a single date column the specified condition "every value of
    the matched row is null" holds for the sample row, but the extractor
    does not abort: [squeeze] yields a scalar, [zhvi_series.empty] raises
    [AttributeError], the run prints no error message; and the same
    dataset with a number in the cell raises as well. *)
Theorem extractor_single_date_column_raises :
  spec_extractor_fails "12345" (Sample.df ["2020-01-31"] Sample.all_null)
  /\ series_extractor "12345" (Sample.df ["2020-01-31"] Sample.all_null)
     = Crash AttributeError
  /\ fst (generate_zhvi_animation "12345"
            (Sample.world
               (Some (Table (Sample.df ["2020-01-31"] Sample.all_null)))))
     = Raised AttributeError
  /\ stdout (snd (generate_zhvi_animation "12345"
            (Sample.world
               (Some (Table (Sample.df ["2020-01-31"] Sample.all_null))))))
     = [MsgLoading]
  /\ series_extractor "12345" (Sample.df ["2020-01-31"]
                                (Sample.flat (Float64 250)))
     = Crash AttributeError.
Proof.
  split; [|repeat split].
  unfold spec_extractor_fails.
  change (Py.int "12345") with (Some 12345%Z). cbv iota beta.
  right; right. intros r c Hr _.
  change (zip_data_row 12345 (Sample.df ["2020-01-31"] Sample.all_null))
    with [Sample.springfield Sample.all_null] in Hr.
  destruct Hr as [<-|[]]. reflexivity.
Qed.

(** ** The frame duration *)

(** C3: the duration is a function of the frame count alone, and the run
    applies it to the number of frames it rendered: below 50 frames it is
    0.3 s (slow), above 120 frames 0.1 s (fast), from 50 to 120 frames
    0.15 s (middle); so 49 is slow, 50 and 120 are middle, 121 is fast. *)
Theorem duration_by_frame_count (F : Z) :
  (forall zip_code_str w name a,
     wrote zip_code_str w name a ->
     duration a = duration_per_frame_seconds (Py.len (frames a)))
  /\ duration_per_frame_seconds F = tier_seconds (spec_tier F)
  /\ ((F < 50)%Z -> duration_per_frame_seconds F = 3 # 10)
  /\ ((120 < F)%Z -> duration_per_frame_seconds F = 1 # 10)
  /\ ((50 <= F <= 120)%Z -> duration_per_frame_seconds F = 15 # 100)
  /\ duration_per_frame_seconds 49 = tier_seconds Slow
  /\ duration_per_frame_seconds 50 = tier_seconds Middle
  /\ duration_per_frame_seconds 120 = tier_seconds Middle
  /\ duration_per_frame_seconds 121 = tier_seconds Fast.
Proof.
  split.
  { intros z w name a Hrun.
    destruct (generate_wrote_inv _ _ _ _ Hrun)
      as (df & matched & series & mn & mx & _ & _ & _ & _ & ->).
    reflexivity. }
  unfold duration_per_frame_seconds, spec_tier.
  destruct (Z.ltb_spec F 50), (Z.gtb_spec F 120);
    repeat split; intros; try reflexivity; lia.
Qed.

Lemma duration_by_frame_count_witness :
  duration_per_frame_seconds 49 = 3 # 10
  /\ duration_per_frame_seconds 121 = 1 # 10
  /\ duration_per_frame_seconds 50 = 15 # 100.
Proof.
  destruct (duration_by_frame_count 49) as (_ & _ & Hslow & _).
  destruct (duration_by_frame_count 121) as (_ & _ & _ & Hfast & _).
  destruct (duration_by_frame_count 50) as (_ & _ & _ & _ & Hmiddle & _).
  split; [|split].
  - apply Hslow. lia.
  - apply Hfast. lia.
  - apply Hmiddle. lia.
Defined.

(** * Further properties of the script *)

(** ** More on the frame sampler *)

#[local] Open Scope Z_scope.

(** X1: for a series of [N >= 1] points the number of frames stays within
    the budget of 150 exactly when [N] is at most 150 or a multiple of
    150. *)
Theorem frame_budget_respected_iff (N : Z) (HN : 1 <= N) :
  Py.len (frame_indices N) <= max_frames_for_gif
  <-> N <= max_frames_for_gif \/ N mod max_frames_for_gif = 0.
Proof.
  rewrite frame_indices_len by lia. unfold frame_step, max_frames_for_gif.
  destruct (Z.gtb_spec N 150) as [Hgt|Hle].
  - assert (Hq : 1 <= N / 150) by (apply Z.div_le_lower_bound; lia).
    rewrite Z.max_r by lia.
    pose proof (Z.mod_pos_bound N 150 ltac:(lia)) as Hm.
    pose proof (Z.div_mod N 150 ltac:(lia)) as Hd.
    split.
    + intros Hc. right.
      destruct (Z.eq_dec (N mod 150) 0) as [|Hne]; [assumption|exfalso].
      assert (150 <= (N - 1) / (N / 150)); [|lia].
      apply Z.div_le_lower_bound; lia.
    + intros [Hl|Hz]; [lia|].
      assert ((N - 1) / (N / 150) < 150); [|lia].
      apply Z.div_lt_upper_bound; lia.
  - rewrite Z.div_1_r. split; [now left|lia].
Qed.

Lemma frame_budget_respected_iff_witness :
  Py.len (frame_indices 450) <= max_frames_for_gif.
Proof.
  apply (frame_budget_respected_iff 450 ltac:(lia)). right. reflexivity.
Defined.

(** X2: the stride is [max(1, N // 150)] for every [N], with or without the
    guard [N > 150]; it reaches 2 only from 300 points on, and it never
    decreases when the series grows. *)
Theorem frame_step_value (N M : Z) :
  frame_step N = Z.max 1 (N / max_frames_for_gif)
  /\ (2 <= frame_step N <-> 2 * max_frames_for_gif <= N)
  /\ (N <= M -> frame_step N <= frame_step M).
Proof.
  assert (Hval : forall n, frame_step n = Z.max 1 (n / 150)).
  { intros n. unfold frame_step, max_frames_for_gif.
    destruct (Z.gtb_spec n 150) as [Hgt|Hle]; [reflexivity|].
    assert (n / 150 <= 1); [|lia].
    apply Z.lt_succ_r, Z.div_lt_upper_bound; lia. }
  unfold max_frames_for_gif. split; [apply Hval|]. split.
  - rewrite Hval. split; intros H.
    + assert (2 <= N / 150) by lia.
      pose proof (Z.mul_div_le N 150 ltac:(lia)). lia.
    + assert (2 <= N / 150) by (apply Z.div_le_lower_bound; lia). lia.
  - intros Hle. rewrite !Hval.
    pose proof (Z.div_le_mono N M 150 ltac:(lia) Hle). lia.
Qed.

Lemma frame_step_value_witness : frame_step 299 <= frame_step 300.
Proof.
  destruct (frame_step_value 299 300) as (_ & _ & Hmono).
  apply Hmono. lia.
Defined.

(** X4: sampling keeps the duration tier: the duration chosen for the
    rendered frames is the one the full series length would get. *)
Theorem duration_unchanged_by_sampling (N : Z) (HN : 0 <= N) :
  duration_per_frame_seconds (Py.len (frame_indices N))
  = duration_per_frame_seconds N.
Proof.
  destruct (Z.eq_dec N 0) as [->|Hne]; [reflexivity|].
  destruct (Z.le_gt_cases N 150) as [Hle|Hgt].
  - now rewrite frame_count_within_budget by (unfold max_frames_for_gif; lia).
  - assert (Hc : 150 <= Py.len (frame_indices N)).
    { rewrite frame_indices_len by lia. unfold frame_step, max_frames_for_gif.
      destruct (Z.gtb_spec N 150); [|lia].
      assert (Hq : 1 <= N / 150) by (apply Z.div_le_lower_bound; lia).
      rewrite Z.max_r by lia.
      pose proof (Z.mul_div_le N 150 ltac:(lia)).
      assert (149 <= (N - 1) / (N / 150)); [|lia].
      apply Z.div_le_lower_bound; lia. }
    unfold duration_per_frame_seconds.
    destruct (Z.ltb_spec (Py.len (frame_indices N)) 50); [lia|].
    destruct (Z.gtb_spec (Py.len (frame_indices N)) 120); [|lia].
    destruct (Z.ltb_spec N 50); [lia|].
    destruct (Z.gtb_spec N 120); [reflexivity|lia].
Qed.

Lemma duration_unchanged_by_sampling_witness :
  duration_per_frame_seconds (Py.len (frame_indices 1000))
  = duration_per_frame_seconds 1000.
Proof. apply (duration_unchanged_by_sampling 1000). lia. Defined.

(** ** More on steps 5 and 6 *)

Lemma series_with_number_nonempty (series : list cell) :
  forallb isnull series = false -> 1 <= Py.len series.
Proof.
  destruct series as [|c l]; [discriminate|].
  intros _. unfold Py.len. cbn [List.length]. lia.
Qed.

(** X5: an animation the script writes has at least one frame and fewer
    than 300, and at its per-frame duration it plays for less than 30
    seconds. *)
Theorem written_animation_is_bounded (zip_code_str : string) (w : World)
    (name : string) (a : Animation)
    (Hrun : wrote zip_code_str w name a) :
  1 <= Py.len (frames a) < 2 * max_frames_for_gif
  /\ (0 < playback a)%Q /\ (playback a < 30)%Q.
Proof.
  destruct (generate_wrote_inv _ _ _ _ Hrun)
    as (df & matched & series & mn & mx & Hx & _ & _ & _ & ->).
  pose proof (series_with_number_nonempty _
                (extracted_series_has_number _ _ _ _ Hx)) as HN.
  unfold playback. cbn [animation_of frames duration].
  assert (Hlen : forall (f : Z -> Frame) l, Py.len (map f l) = Py.len l).
  { intros f l. unfold Py.len. now rewrite length_map. }
  rewrite Hlen.
  pose proof (frame_count_below_twice_budget _ HN) as Hub.
  pose proof (frame_indices_len _ HN) as Hc.
  pose proof (frame_step_pos (Py.len series)) as Hs.
  assert (0 <= (Py.len series - 1) / frame_step (Py.len series))
    by (apply Z.div_pos; lia).
  set (F := Py.len (frame_indices (Py.len series))) in *.
  unfold max_frames_for_gif in *. split; [lia|].
  unfold duration_per_frame_seconds.
  destruct (Z.ltb_spec F 50); [|destruct (Z.gtb_spec F 120)];
    unfold Qlt; cbn; lia.
Qed.

Lemma written_animation_is_bounded_witness :
  (playback (animation_of "02134" [Sample.allston Sample.rising]
                          [Some (Float64 100); Some (Float64 300)]
                          (Float64 100) (Float64 300)) < 30)%Q.
Proof.
  assert (Hrun : wrote "02134" Sample.boston "zhvi_animation_02134.gif"
                   (animation_of "02134" [Sample.allston Sample.rising]
                                 [Some (Float64 100); Some (Float64 300)]
                                 (Float64 100) (Float64 300)))
    by reflexivity.
  exact (proj2 (proj2 (written_animation_is_bounded _ _ _ _ Hrun))).
Defined.

(** What a run that wrote its animation went through, with the length of
    the series. *)
Lemma written_run_stages (zip_code_str : string) (w : World) (name : string)
    (a : Animation) :
  wrote zip_code_str w name a ->
  exists df matched series mn mx,
    series_extractor zip_code_str df = Extracted matched series
    /\ 1 <= Py.len series
    /\ series_min series = Some mn /\ series_max series = Some mx
    /\ a = animation_of zip_code_str matched series mn mx.
Proof.
  intros Hrun.
  destruct (generate_wrote_inv _ _ _ _ Hrun)
    as (df & matched & series & mn & mx & Hx & Hmin & Hmax & _ & ->).
  exists df, matched, series, mn, mx. repeat split; try assumption.
  exact (series_with_number_nonempty _
           (extracted_series_has_number _ _ _ _ Hx)).
Qed.

(** A frame of a sampled index plots as many points as its index says. *)
Lemma render_plotted_len (zip_code_str location : string)
    (series : list cell) (bounds : number * number) (i : Z) :
  0 <= i < Py.len series ->
  Py.len (plotted (render zip_code_str location (values series) bounds i))
  = i + 1.
Proof.
  intros Hi. unfold render, Py.len, Py.slice_to in *. cbn [plotted].
  rewrite length_firstn, values_length. lia.
Qed.



(** The last sampled index is the greatest multiple of the stride below
    the length of the series. *)
Lemma frame_indices_last (N : Z) :
  1 <= N ->
  last (frame_indices N) 0 = (N - 1) - (N - 1) mod frame_step N.
Proof.
  intros HN. pose proof (frame_step_pos N) as Hs.
  pose proof (Z.mod_pos_bound (N - 1) (frame_step N) ltac:(lia)) as Hm.
  pose proof (Z.div_mod (N - 1) (frame_step N) ltac:(lia)) as Hd.
  apply last_sorted_max; [apply frame_indices_sorted| |].
  - apply frame_indices_In. split; [|].
    + pose proof (Z.mod_le (N - 1) (frame_step N) ltac:(lia) ltac:(lia)). lia.
    + replace (N - 1 - (N - 1) mod frame_step N)
        with ((N - 1) / frame_step N * frame_step N) by lia.
      apply Z.mod_mul. lia.
  - intros y Hy. apply frame_indices_In in Hy. destruct Hy as [Hyr Hy].
    apply Z.mod_divide in Hy; [|lia]. destruct Hy as [q ->].
    assert (q <= (N - 1) / frame_step N); [|nia].
    apply Z.div_le_lower_bound; lia.
Qed.

(** X3: in a run that writes its file, the frame of index [i] shows
    exactly the points [0] to [i].  A point [j] is therefore shown by some
    frame exactly when it is not beyond the last sampled index; its first
    frame is then the one of the next multiple of the stride [S] at or
    after [j], fewer than [S] points later; and the points beyond the last
    sampled index, fewer than [S] of them, are shown in no frame. *)
Theorem points_shown_by_frames (zip_code_str : string) (w : World)
    (name : string) (a : Animation)
    (Hrun : wrote zip_code_str w name a) :
  exists df matched series,
    series_extractor zip_code_str df = Extracted matched series
    /\ (forall f j, In f (frames a) -> (shows f j <-> 0 <= j <= frame_i f))
    /\ (forall j, 0 <= j < Py.len series ->
          ((exists f, In f (frames a) /\ shows f j)
           <-> j <= last (frame_indices (Py.len series)) 0))
    /\ (forall j, 0 <= j <= last (frame_indices (Py.len series)) 0 ->
          exists f,
            In f (frames a) /\ shows f j
            /\ frame_i f
               = (j + frame_step (Py.len series) - 1)
                 / frame_step (Py.len series) * frame_step (Py.len series)
            /\ frame_i f - j < frame_step (Py.len series)
            /\ (forall g, In g (frames a) -> shows g j ->
                  frame_i f <= frame_i g))
    /\ Py.len series - 1 - last (frame_indices (Py.len series)) 0
       < frame_step (Py.len series).
Proof.
  destruct (written_run_stages _ _ _ _ Hrun)
    as (df & matched & series & mn & mx & Hx & HN & _ & _ & ->).
  exists df, matched, series. split; [exact Hx|].
  cbn [animation_of frames].
  set (N := Py.len series) in *. set (S := frame_step N).
  set (R := render zip_code_str (location_info matched) (values series)
                   (y_limits mn mx)).
  pose proof (frame_step_pos N) as Hs. fold S in Hs.
  pose proof (frame_indices_last N HN) as HL. fold S in HL.
  set (L := last (frame_indices N) 0) in *.
  pose proof (Z.mod_pos_bound (N - 1) S ltac:(lia)) as HmN.
  pose proof (Z.div_mod (N - 1) S ltac:(lia)) as HdN.
  pose proof (Z.mod_le (N - 1) S ltac:(lia) ltac:(lia)) as HleN.
  assert (HqN : 0 <= (N - 1) / S) by (apply Z.div_pos; lia).
  assert (Hshow : forall i j, In i (frame_indices N) ->
            (shows (R i) j <-> 0 <= j <= i)).
  { intros i j Hi. apply frame_indices_In in Hi. destruct Hi as [Hi _].
    unfold shows, R. rewrite render_plotted_len by exact Hi. lia. }
  assert (Hidx : forall i, In i (frame_indices N) <-> 0 <= i < N /\ i mod S = 0)
    by (intros i; apply frame_indices_In).
  assert (Hmul : forall i, In i (frame_indices N) ->
            exists q, i = q * S /\ q <= (N - 1) / S).
  { intros i Hi. apply Hidx in Hi. destruct Hi as [Hr Hm].
    apply Z.mod_divide in Hm; [|lia]. destruct Hm as [q ->].
    exists q. split; [reflexivity|]. apply Z.div_le_lower_bound; lia. }
  assert (HLin : In L (frame_indices N)).
  { apply Hidx. split; [lia|]. rewrite HL.
    replace (N - 1 - (N - 1) mod S) with ((N - 1) / S * S) by lia.
    apply Z.mod_mul. lia. }
  split; [|split; [|split]].
  - intros f j Hf. apply in_map_iff in Hf. destruct Hf as [i [<- Hi]].
    change (frame_i (R i)) with i. now apply Hshow.
  - intros j Hj. split.
    + intros [f [Hf Hsh]]. apply in_map_iff in Hf.
      destruct Hf as [i [<- Hi]]. apply (Hshow i j Hi) in Hsh.
      destruct (Hmul i Hi) as [q [-> Hq]]. nia.
    + intros Hle. exists (R L). split; [now apply in_map|].
      apply Hshow; [exact HLin|lia].
  - intros j Hj.
    pose proof (Z.mod_pos_bound (j + S - 1) S ltac:(lia)) as Hmj.
    pose proof (Z.div_mod (j + S - 1) S ltac:(lia)) as Hdj.
    set (c := (j + S - 1) / S * S) in *.
    assert (Hc : j <= c < j + S) by lia.
    assert (HcL : c <= L).
    { assert ((j + S - 1) / S < (N - 1) / S + 1); [|nia].
      apply Z.div_lt_upper_bound; nia. }
    assert (Hcin : In c (frame_indices N)).
    { apply Hidx. split; [lia|]. apply Z.mod_mul. lia. }
    exists (R c). split; [now apply in_map|].
    split; [apply Hshow; [exact Hcin|lia]|].
    change (frame_i (R c)) with c.
    split; [reflexivity|]. split; [lia|].
    intros g Hg Hsh. apply in_map_iff in Hg. destruct Hg as [i [<- Hi]].
    change (frame_i (R i)) with i. apply (Hshow i j Hi) in Hsh.
    destruct (Hmul i Hi) as [q [-> Hq]].
    assert ((j + S - 1) / S < q + 1); [|nia].
    apply Z.div_lt_upper_bound; nia.
  - lia.
Qed.

Lemma points_shown_by_frames_witness :
  exists df matched series,
    series_extractor "02134" df = Extracted matched series
    /\ Py.len series - 1 - last (frame_indices (Py.len series)) 0
       < frame_step (Py.len series).
Proof.
  destruct (points_shown_by_frames "02134" Sample.boston
              "zhvi_animation_02134.gif"
              (animation_of "02134" [Sample.allston Sample.rising]
                 [Some (Float64 100); Some (Float64 300)]
                 (Float64 100) (Float64 300)) eq_refl)
    as (df & matched & series & Hx & _ & _ & _ & Hend).
  exists df, matched, series. split; [exact Hx|exact Hend].
Defined.

(** What steps 5 and 6 print when the series has a minimum and a
    maximum. *)
Lemma animate_stdout (zip_code_str : string) (matched : list Row)
    (series : list cell) (w : World) (mn mx : number) :
  series_min series = Some mn -> series_max series = Some mx ->
  stdout (snd (animate zip_code_str matched series w))
  = stdout w
    ++ [MsgGeneratingFrames]
    ++ (if Py.len series >? max_frames_for_gif
        then [MsgEveryNth (Py.len series) (frame_step (Py.len series))]
        else [])
    ++ flat_map (progress (Py.len series) (frame_step (Py.len series)))
                (frame_indices (Py.len series))
    ++ [MsgCreatingGif (gif_filename zip_code_str);
        MsgSaved (gif_filename zip_code_str); MsgProcessComplete].
Proof.
  intros Hmin Hmax. unfold animate. rewrite Hmin, Hmax.
  destruct (Py.len series >? max_frames_for_gif);
    cbn [print mimsave stdout snd]; rewrite <- ?app_assoc; reflexivity.
Qed.

(** The progress lines are those of the frames number 1, 21, 41, ... *)
Lemma progress_lines (N : Z) (m : message) :
  1 <= N ->
  In m (flat_map (progress N (frame_step N)) (frame_indices N))
  <-> exists k, m = MsgFrameProgress k (Py.len (frame_indices N))
                /\ 1 <= k <= Py.len (frame_indices N)
                /\ (k - 1) mod 20 = 0.
Proof.
  intros HN. pose proof (frame_step_pos N) as Hs.
  rewrite (frame_indices_len N HN).
  rewrite in_flat_map. unfold progress. split.
  - intros [i [Hi Hm]]. apply frame_indices_In in Hi. destruct Hi as [Hr Hmod].
    destruct (Z.eqb_spec ((i / frame_step N) mod 20) 0) as [H20|];
      [|destruct Hm].
    destruct Hm as [<-|[]]. exists (i / frame_step N + 1).
    split; [reflexivity|].
    assert (0 <= i / frame_step N) by (apply Z.div_pos; lia).
    assert (i / frame_step N <= (N - 1) / frame_step N)
      by (apply Z.div_le_mono; lia).
    split; [lia|].
    now replace (i / frame_step N + 1 - 1) with (i / frame_step N) by lia.
  - intros [k (-> & Hk & H20)]. exists ((k - 1) * frame_step N).
    pose proof (Z.mul_div_le (N - 1) (frame_step N) ltac:(lia)).
    split.
    + apply frame_indices_In. split; [nia|]. apply Z.mod_mul. lia.
    + rewrite Z.div_mul by lia. rewrite H20. cbn [Z.eqb].
      left. f_equal. lia.
Qed.

(** X8: what a run that finds the dataset file and writes its animation
    prints, in order: the loading line, the start line of step 5, the
    stride line when the series has more than 150 points (also when the
    stride is 1), the progress lines, and the three closing lines.  A
    progress line is printed for the frames number 1, 21, 41, ... and for
    no other, and the total it shows is the number of frames rendered. *)
Theorem written_run_console (zip_code_str : string) (w : World)
    (df : DataFrame) (name : string) (a : Animation)
    (Hfile : csv_file w = Some (Table df))
    (Hrun : wrote zip_code_str w name a) :
  exists matched series,
    series_extractor zip_code_str df = Extracted matched series
    /\ stdout (snd (generate_zhvi_animation zip_code_str w))
       = stdout w
         ++ [MsgLoading; MsgGeneratingFrames]
         ++ (if Py.len series >? max_frames_for_gif
             then [MsgEveryNth (Py.len series) (frame_step (Py.len series))]
             else [])
         ++ flat_map (progress (Py.len series) (frame_step (Py.len series)))
                     (frame_indices (Py.len series))
         ++ [MsgCreatingGif (gif_filename zip_code_str);
             MsgSaved (gif_filename zip_code_str); MsgProcessComplete]
    /\ (forall m,
          In m (flat_map (progress (Py.len series)
                                   (frame_step (Py.len series)))
                         (frame_indices (Py.len series)))
          <-> exists k,
                m = MsgFrameProgress k
                      (Py.len (frame_indices (Py.len series)))
                /\ 1 <= k <= Py.len (frame_indices (Py.len series))
                /\ (k - 1) mod 20 = 0).
Proof.
  unfold wrote in Hrun. revert Hrun.
  unfold generate_zhvi_animation. rewrite Hfile. cbn [negb].
  assert (Hload : csv_file (print [MsgLoading] w) = Some (Table df))
    by exact Hfile.
  rewrite Hload.
  destruct (series_extractor zip_code_str df) as [ms|e|matched series] eqn:Hx.
  - cbn [snd print gif_files]. intros H. symmetry in H.
    exfalso. exact (cons_neq_self _ _ H).
  - cbn [snd print gif_files]. intros H. symmetry in H.
    exfalso. exact (cons_neq_self _ _ H).
  - intros _. exists matched, series. split; [reflexivity|].
    pose proof (extracted_series_has_number _ _ _ _ Hx) as Hnum.
    destruct (series_min_max_defined series Hnum) as (mn & mx & Hmin & Hmax).
    split.
    + rewrite (animate_stdout _ _ _ _ mn mx Hmin Hmax).
      cbn [print stdout]. now rewrite <- app_assoc.
    + intros m. apply progress_lines.
      now apply series_with_number_nonempty.
Qed.

Lemma written_run_console_witness :
  stdout (snd (generate_zhvi_animation "02134" Sample.boston))
  = [MsgLoading; MsgGeneratingFrames; MsgFrameProgress 1 2;
     MsgCreatingGif "zhvi_animation_02134.gif";
     MsgSaved "zhvi_animation_02134.gif"; MsgProcessComplete].
Proof.
  destruct (written_run_console "02134" Sample.boston
              (mkDataFrame (Sample.header Sample.months2)
                           [Sample.allston Sample.rising])
              "zhvi_animation_02134.gif"
              (animation_of "02134" [Sample.allston Sample.rising]
                 [Some (Float64 100); Some (Float64 300)]
                 (Float64 100) (Float64 300)) eq_refl eq_refl)
    as (matched & series & Hx & Hout & _).
  injection Hx as <- <-. exact Hout.
Defined.

(** ** More on the run as a whole *)

Lemma extend_extend (w : World) (ms ms' : list message)
    (g g' : list (string * Animation)) :
  extend (extend w ms g) ms' g' = extend w (ms ++ ms') (g' ++ g).
Proof.
  unfold extend. cbn [csv_file remote net_calls stdout gif_files].
  now rewrite <- !app_assoc.
Qed.

Lemma print_extend (ms : list message) (w : World) :
  print ms w = extend w ms [].
Proof. reflexivity. Qed.

(** The messages of an abort of the extractor. *)
Lemma abort_messages (zip_code_str : string) (df : DataFrame)
    (ms : list message) :
  series_extractor zip_code_str df = Abort ms ->
  ~ In MsgProcessComplete ms.
Proof.
  unfold series_extractor.
  destruct (Py.int zip_code_str) as [z|].
  2:{ intros [= <-] [H|[]]. discriminate H. }
  destruct (is_empty (zip_data_row z df)).
  { intros [= <-] [H|[H|[]]]; discriminate H. }
  destruct (is_empty (date_columns df)).
  { intros [= <-] [H|[H|[]]]; discriminate H. }
  destruct (squeeze _ _) as [v|vs|n sel]; [discriminate| |].
  - destruct (is_empty vs || forallb isnull vs); [|discriminate].
    intros [= <-] [H|[]]. discriminate H.
  - destruct (is_empty sel || Nat.eqb n 0); [|discriminate].
    intros [= <-] [H|[]]. discriminate H.
Qed.

(** Steps 5 and 6 act on the world in one and the same way: they print
    lines and write at most one file. *)
Lemma mimsave_extend (name : string) (a : Animation) (w : World) :
  mimsave name a w = extend w [] [(name, a)].
Proof.
  unfold mimsave, extend. now rewrite app_nil_r.
Qed.

Lemma extend_nil (w : World) : w = extend w [] [].
Proof.
  destruct w. unfold extend. cbn. now rewrite app_nil_r.
Qed.

Lemma animate_uniform (zip_code_str : string) (matched : list Row)
    (series : list cell) :
  exists r ms g,
    (forall w, animate zip_code_str matched series w = (r, extend w ms g))
    /\ ((g = [] /\ ~ In MsgProcessComplete ms)
        \/ (exists a, g = [(gif_filename zip_code_str, a)]
                      /\ In MsgProcessComplete ms /\ r = Returned)).
Proof.
  assert (Hfail : forall ms0 : list message,
            ~ In MsgProcessComplete ms0 ->
            exists r ms g,
              (forall w, (Raised ValueError, extend w ms0 [])
                         = (r, extend w ms g))
              /\ ((g = [] /\ ~ In MsgProcessComplete ms)
                  \/ (exists a, g = [(gif_filename zip_code_str, a)]
                                /\ In MsgProcessComplete ms /\ r = Returned))).
  { intros ms0 Hn. exists (Raised ValueError), ms0, []. split; [reflexivity|].
    left. now split. }
  unfold animate. cbv zeta.
  destruct (series_min series) as [mn|], (series_max series) as [mx|].
  - exists Returned.
    destruct (Py.len series >? max_frames_for_gif);
      eexists _, _;
      (split;
       [intros w; rewrite mimsave_extend, !print_extend, !extend_extend;
        reflexivity|]);
      right; eexists; (split; [reflexivity|]); (split; [|reflexivity]);
      rewrite !in_app_iff; cbn [In]; tauto.
  - destruct (Py.len series >? max_frames_for_gif);
      [destruct (Hfail [MsgGeneratingFrames;
                        MsgEveryNth (Py.len series)
                                    (frame_step (Py.len series))])
         as (r & ms & g & H & Hi)
      |destruct (Hfail [MsgGeneratingFrames]) as (r & ms & g & H & Hi)];
      try (cbn; intuition discriminate);
      exists r, ms, g; (split; [|exact Hi]); intros w;
      rewrite <- H, !print_extend, ?extend_extend; reflexivity.
  - destruct (Py.len series >? max_frames_for_gif);
      [destruct (Hfail [MsgGeneratingFrames;
                        MsgEveryNth (Py.len series)
                                    (frame_step (Py.len series))])
         as (r & ms & g & H & Hi)
      |destruct (Hfail [MsgGeneratingFrames]) as (r & ms & g & H & Hi)];
      try (cbn; intuition discriminate);
      exists r, ms, g; (split; [|exact Hi]); intros w;
      rewrite <- H, !print_extend, ?extend_extend; reflexivity.
  - destruct (Py.len series >? max_frames_for_gif);
      [destruct (Hfail [MsgGeneratingFrames;
                        MsgEveryNth (Py.len series)
                                    (frame_step (Py.len series))])
         as (r & ms & g & H & Hi)
      |destruct (Hfail [MsgGeneratingFrames]) as (r & ms & g & H & Hi)];
      try (cbn; intuition discriminate);
      exists r, ms, g; (split; [|exact Hi]); intros w;
      rewrite <- H, !print_extend, ?extend_extend; reflexivity.
Qed.

(** So does a whole run that finds the dataset file. *)
Lemma cached_run_uniform (zip_code_str : string) (c : FileContent) :
  exists r ms g,
    (forall w, csv_file w = Some c ->
       generate_zhvi_animation zip_code_str w = (r, extend w ms g))
    /\ ((g = [] /\ ~ In MsgProcessComplete ms)
        \/ (exists a, g = [(gif_filename zip_code_str, a)]
                      /\ In MsgProcessComplete ms /\ r = Returned)).
Proof.
  unfold generate_zhvi_animation. destruct c as [df|].
  2:{ exists Returned, [MsgLoading; MsgReadError], []. split.
      - intros w Hc. rewrite Hc. cbn [negb]. cbn [print csv_file]. rewrite Hc.
        fold (print [MsgLoading] w).
        fold (print [MsgReadError] (print [MsgLoading] w)).
        now rewrite !print_extend, extend_extend.
      - left. split; [reflexivity|]. cbn. intuition discriminate. }
  destruct (series_extractor zip_code_str df) as [ms0|e|matched series] eqn:Hx.
  - exists Returned, (MsgLoading :: ms0), []. split.
    + intros w Hc. rewrite Hc. cbn [negb]. cbn [print csv_file]. rewrite Hc, Hx.
      fold (print [MsgLoading] w). fold (print ms0 (print [MsgLoading] w)).
      now rewrite !print_extend, extend_extend.
    + left. split; [reflexivity|]. intros [H|H]; [discriminate H|].
      exact (abort_messages _ _ _ Hx H).
  - exists (Raised e), [MsgLoading], []. split.
    + intros w Hc. rewrite Hc. cbn [negb]. cbn [print csv_file]. rewrite Hc, Hx.
      reflexivity.
    + left. split; [reflexivity|]. cbn. intuition discriminate.
  - destruct (animate_uniform zip_code_str matched series)
      as (r & ms & g & Hall & Hinv).
    exists r, (MsgLoading :: ms), g. split.
    + intros w Hc. rewrite Hc. cbn [negb]. cbn [print csv_file]. rewrite Hc, Hx.
      fold (print [MsgLoading] w).
      now rewrite Hall, print_extend, extend_extend, app_nil_r.
    + destruct Hinv as [[-> Hn]|(a & -> & Hin & ->)].
      * left. split; [reflexivity|]. intros [H|H]; [discriminate H|tauto].
      * right. exists a. repeat split; auto. now right.
Qed.

(** A run that downloads the whole dataset goes on as a run that finds the
    file the download has written. *)
Lemma generate_after_download (zip_code_str : string) (w : World)
    (c : FileContent) :
  csv_file w = None -> remote w (net_calls w) = Served c ->
  generate_zhvi_animation zip_code_str w
  = generate_zhvi_animation zip_code_str (snd (download_data w))
  /\ download_data w
     = (true, mkWorld (Some c) (remote w) (S (net_calls w))
                      (stdout w ++ [MsgDownloading; MsgDownloaded])
                      (gif_files w)).
Proof.
  intros Hc Hr.
  assert (Hd : download_data w
     = (true, mkWorld (Some c) (remote w) (S (net_calls w))
                      (stdout w ++ [MsgDownloading; MsgDownloaded])
                      (gif_files w))).
  { unfold download_data, http_get, print, write_csv.
    cbn [csv_file remote net_calls stdout gif_files]. rewrite Hr.
    now rewrite <- app_assoc. }
  split; [|exact Hd].
  unfold generate_zhvi_animation at 1. rewrite Hc, Hd. cbn [negb snd].
  unfold generate_zhvi_animation. reflexivity.
Qed.

Lemma run_all_cached (zip_codes : list string) (w : World) :
  csv_file w <> None ->
  net_calls (run_all zip_codes w) = net_calls w
  /\ csv_file (run_all zip_codes w) = csv_file w.
Proof.
  revert w. induction zip_codes as [|z zs IH]; intros w Hfile; [now split|].
  cbn [run_all]. destruct (generate_cached z w Hfile) as [Hnet Hcsv].
  destruct (IH (snd (generate_zhvi_animation z w))) as [Hn Hc];
    [now rewrite Hcsv|].
  rewrite Hn, Hc. now split.
Qed.

(** X9: what one run can do to its environment: it only adds lines to the
    console, writes at most one file, named after the identifier, on top
    of the animation files already there, makes one request when the
    dataset file is missing and none otherwise, and leaves an existing
    dataset file as it is. *)
Theorem run_effects_bounded (zip_code_str : string) (w : World) :
  exists ms g,
    stdout (snd (generate_zhvi_animation zip_code_str w)) = stdout w ++ ms
    /\ gif_files (snd (generate_zhvi_animation zip_code_str w))
       = g ++ gif_files w
    /\ (g = [] \/ exists a, g = [(gif_filename zip_code_str, a)])
    /\ net_calls (snd (generate_zhvi_animation zip_code_str w))
       = match csv_file w with
         | Some _ => net_calls w
         | None => S (net_calls w)
         end
    /\ remote (snd (generate_zhvi_animation zip_code_str w)) = remote w
    /\ (csv_file w <> None ->
        csv_file (snd (generate_zhvi_animation zip_code_str w)) = csv_file w).
Proof.
  destruct (csv_file w) as [c|] eqn:Hc.
  - destruct (cached_run_uniform zip_code_str c) as (r & ms & g & Hall & Hinv).
    rewrite (Hall w Hc). exists ms, g. cbn [snd extend stdout gif_files
      net_calls remote csv_file].
    repeat split; auto.
    destruct Hinv as [[-> _]|(a & -> & _)]; [now left|right; now exists a].
  - destruct (remote w (net_calls w)) as [|c|c] eqn:Hr.
    + exists [MsgDownloading; MsgDownloadError; MsgDownloadFailedExiting], [].
      unfold generate_zhvi_animation, download_data, http_get.
      rewrite Hc. cbn [print csv_file remote net_calls stdout gif_files].
      rewrite Hr. cbn [negb snd print csv_file remote net_calls stdout
                       gif_files app].
      rewrite <- !app_assoc. repeat split; auto; congruence.
    + destruct (generate_after_download zip_code_str w c Hc Hr) as [-> Hd].
      rewrite Hd. cbn [snd].
      destruct (cached_run_uniform zip_code_str c) as (r & ms & g & Hall & Hinv).
      rewrite Hall by reflexivity.
      exists ([MsgDownloading; MsgDownloaded] ++ ms), g.
      cbn [snd extend stdout gif_files net_calls remote csv_file].
      rewrite <- app_assoc. repeat split; auto; try congruence.
      destruct Hinv as [[-> _]|(a & -> & _)]; [now left|right; now exists a].
    + exists [MsgDownloading; MsgDownloadError; MsgDownloadFailedExiting], [].
      unfold generate_zhvi_animation, download_data, http_get.
      rewrite Hc. cbn [print csv_file remote net_calls stdout gif_files].
      rewrite Hr. cbn [negb snd print write_csv csv_file remote net_calls
                       stdout gif_files app].
      rewrite <- !app_assoc. repeat split; auto; congruence.
Qed.

Lemma run_effects_bounded_witness :
  csv_file (snd (generate_zhvi_animation "02134" Sample.boston))
  = csv_file Sample.boston.
Proof.
  destruct (run_effects_bounded "02134" Sample.boston)
    as (ms & g & _ & _ & _ & _ & _ & Hcsv).
  apply Hcsv. discriminate.
Defined.



(** X11: when the download breaks off after the file has been opened, the
    run gives up without an animation, but the chunks written so far stay
    in the dataset file: every later run takes them for the dataset and
    never asks the network again; if they cannot be read, every later run
    ends with the read error. *)
Theorem interrupted_download_is_kept_as_cache (zip_code_str : string)
    (w : World) (c : FileContent)
    (Hnone : csv_file w = None)
    (Hbroken : remote w (net_calls w) = Interrupted c) :
  generate_zhvi_animation zip_code_str w
  = (Returned,
     mkWorld (Some c) (remote w) (S (net_calls w))
             (stdout w ++ [MsgDownloading; MsgDownloadError;
                           MsgDownloadFailedExiting])
             (gif_files w))
  /\ (forall zip_codes,
        net_calls (run_all zip_codes
                     (snd (generate_zhvi_animation zip_code_str w)))
        = S (net_calls w)
        /\ csv_file (run_all zip_codes
                       (snd (generate_zhvi_animation zip_code_str w)))
           = Some c)
  /\ (c = Unreadable ->
      forall z w', csv_file w' = Some c ->
        generate_zhvi_animation z w'
        = (Returned, extend w' [MsgLoading; MsgReadError] [])).
Proof.
  assert (Hrun : generate_zhvi_animation zip_code_str w
    = (Returned,
       mkWorld (Some c) (remote w) (S (net_calls w))
               (stdout w ++ [MsgDownloading; MsgDownloadError;
                             MsgDownloadFailedExiting])
               (gif_files w))).
  { unfold generate_zhvi_animation, download_data, http_get.
    rewrite Hnone. cbn [print csv_file remote net_calls stdout gif_files].
    rewrite Hbroken. cbn [negb]. unfold print, write_csv.
    cbn [csv_file remote net_calls stdout gif_files].
    now rewrite <- !app_assoc. }
  split; [exact Hrun|]. rewrite Hrun. cbn [snd]. split.
  - intros zips.
    match goal with
    | |- context [run_all zips ?w1] =>
        destruct (run_all_cached zips w1 ltac:(discriminate)) as [-> ->]
    end.
    now split.
  - intros -> z w' Hc. unfold generate_zhvi_animation.
    rewrite Hc. cbn [negb]. cbn [print csv_file]. rewrite Hc.
    fold (print [MsgLoading] w').
    fold (print [MsgReadError] (print [MsgLoading] w')).
    now rewrite !print_extend, extend_extend.
Qed.

Lemma interrupted_download_is_kept_as_cache_witness :
  net_calls
    (run_all ["12345"; "12345"]
       (snd (generate_zhvi_animation "12345"
               (mkWorld None (fun _ => Interrupted Unreadable) 0 [] []))))
  = 1%nat.
Proof.
  destruct (interrupted_download_is_kept_as_cache "12345"
              (mkWorld None (fun _ => Interrupted Unreadable) 0 [] [])
              Unreadable eq_refl eq_refl) as (_ & Hlater & _).
  exact (proj1 (Hlater ["12345"; "12345"])).
Defined.

(** X12: when the request fails before the file is opened, the run gives up
    without an animation and without a dataset file, so the next run asks
    the network again. *)
Theorem failed_request_is_retried_next_run (z1 z2 : string) (w : World)
    (Hnone : csv_file w = None)
    (Hfail : remote w (net_calls w) = RequestFailed) :
  generate_zhvi_animation z1 w
  = (Returned,
     mkWorld None (remote w) (S (net_calls w))
             (stdout w ++ [MsgDownloading; MsgDownloadError;
                           MsgDownloadFailedExiting])
             (gif_files w))
  /\ net_calls (snd (generate_zhvi_animation z2
                       (snd (generate_zhvi_animation z1 w))))
     = S (S (net_calls w)).
Proof.
  assert (Hrun : generate_zhvi_animation z1 w
    = (Returned,
       mkWorld None (remote w) (S (net_calls w))
               (stdout w ++ [MsgDownloading; MsgDownloadError;
                             MsgDownloadFailedExiting])
               (gif_files w))).
  { unfold generate_zhvi_animation, download_data, http_get.
    rewrite Hnone. cbn [print csv_file remote net_calls stdout gif_files].
    rewrite Hfail. cbn [negb]. unfold print.
    cbn [csv_file remote net_calls stdout gif_files].
    now rewrite Hnone, <- !app_assoc. }
  split; [exact Hrun|]. rewrite Hrun. cbn [snd].
  now rewrite uncached_dataset_downloads by reflexivity.
Qed.

Lemma failed_request_is_retried_next_run_witness :
  net_calls (snd (generate_zhvi_animation "12345"
                    (snd (generate_zhvi_animation "12345"
                            (Sample.world None))))) = 2%nat.
Proof.
  exact (proj2 (failed_request_is_retried_next_run "12345" "12345"
                  (Sample.world None) eq_refl eq_refl)).
Defined.

(** Every run in one summary: the lines it prints, the files it writes, and
    how the closing line goes with the file. *)
Lemma run_summary (zip_code_str : string) (w : World) :
  exists ms g,
    stdout (snd (generate_zhvi_animation zip_code_str w)) = stdout w ++ ms
    /\ gif_files (snd (generate_zhvi_animation zip_code_str w))
       = g ++ gif_files w
    /\ ((g = [] /\ ~ In MsgProcessComplete ms)
        \/ (exists a, g = [(gif_filename zip_code_str, a)]
                      /\ In MsgProcessComplete ms
                      /\ fst (generate_zhvi_animation zip_code_str w)
                         = Returned)).
Proof.
  destruct (csv_file w) as [c|] eqn:Hc.
  - destruct (cached_run_uniform zip_code_str c) as (r & ms & g & Hall & Hinv).
    rewrite (Hall w Hc). exists ms, g. cbn [fst snd extend stdout gif_files].
    split; [reflexivity|]. split; [reflexivity|]. exact Hinv.
  - destruct (remote w (net_calls w)) as [|c|c] eqn:Hr.
    + exists [MsgDownloading; MsgDownloadError; MsgDownloadFailedExiting], [].
      unfold generate_zhvi_animation, download_data, http_get.
      rewrite Hc. cbn [print csv_file remote net_calls stdout gif_files].
      rewrite Hr. cbn [negb fst snd]. unfold print.
      cbn [csv_file remote net_calls stdout gif_files app].
      rewrite <- !app_assoc. split; [reflexivity|]. split; [reflexivity|].
      left. split; [reflexivity|]. cbn. intuition discriminate.
    + destruct (generate_after_download zip_code_str w c Hc Hr) as [-> Hd].
      rewrite Hd. cbn [snd].
      destruct (cached_run_uniform zip_code_str c) as (r & ms & g & Hall & Hinv).
      rewrite Hall by reflexivity.
      exists ([MsgDownloading; MsgDownloaded] ++ ms), g.
      cbn [fst snd extend stdout gif_files].
      rewrite <- app_assoc. split; [reflexivity|]. split; [reflexivity|].
      destruct Hinv as [[-> Hn]|(a & -> & Hin & ->)].
      * left. split; [reflexivity|].
        intros [H|[H|H]]; [discriminate H|discriminate H|tauto].
      * right. exists a. repeat split. now right; right.
    + exists [MsgDownloading; MsgDownloadError; MsgDownloadFailedExiting], [].
      unfold generate_zhvi_animation, download_data, http_get.
      rewrite Hc. cbn [print csv_file remote net_calls stdout gif_files].
      rewrite Hr. cbn [negb fst snd]. unfold print, write_csv.
      cbn [csv_file remote net_calls stdout gif_files app].
      rewrite <- !app_assoc. split; [reflexivity|]. split; [reflexivity|].
      left. split; [reflexivity|]. cbn. intuition discriminate.
Qed.

(** X13: the closing line "Process complete." is printed by exactly the
    runs that write an animation file; such a run returns normally. *)
Theorem process_complete_iff_written (zip_code_str : string) (w : World)
    (ms : list message)
    (Hms : stdout (snd (generate_zhvi_animation zip_code_str w))
           = stdout w ++ ms) :
  (In MsgProcessComplete ms <-> exists name a, wrote zip_code_str w name a)
  /\ (In MsgProcessComplete ms ->
      fst (generate_zhvi_animation zip_code_str w) = Returned).
Proof.
  destruct (run_summary zip_code_str w) as (ms' & g & Hs & Hg & Hinv).
  rewrite Hs in Hms. apply app_inv_head in Hms. subst ms'.
  unfold wrote. rewrite Hg.
  destruct Hinv as [[-> Hn]|(a & -> & Hin & Hr)].
  - split; [|tauto]. split; [tauto|].
    intros (name & a & H). cbn [app] in H. symmetry in H.
    exfalso. exact (cons_neq_self _ _ H).
  - split; [|auto]. split; [|auto]. intros _.
    now exists (gif_filename zip_code_str), a.
Qed.

Lemma process_complete_iff_written_witness :
  exists name a, wrote "02134" Sample.boston name a.
Proof.
  apply (process_complete_iff_written "02134" Sample.boston
           [MsgLoading; MsgGeneratingFrames; MsgFrameProgress 1 2;
            MsgCreatingGif "zhvi_animation_02134.gif";
            MsgSaved "zhvi_animation_02134.gif"; MsgProcessComplete]
           eq_refl).
  do 5 right. left. reflexivity.
Defined.

(** X14: running the script again for the same identifier writes the same
    animation under the same name once more. *)
Theorem rerun_writes_same_animation (zip_code_str : string) (w : World)
    (name : string) (a : Animation)
    (Hrun : wrote zip_code_str w name a) :
  wrote zip_code_str (snd (generate_zhvi_animation zip_code_str w)) name a.
Proof.
  assert (Hcached : forall c w0, csv_file w0 = Some c ->
            gif_files (snd (generate_zhvi_animation zip_code_str w0))
            = (name, a) :: gif_files w0 ->
            wrote zip_code_str
                  (snd (generate_zhvi_animation zip_code_str w0)) name a).
  { intros c w0 Hc Hw.
    destruct (cached_run_uniform zip_code_str c) as (r & ms & g & Hall & _).
    unfold wrote. rewrite (Hall w0 Hc) in *. cbn [snd] in *.
    rewrite Hall by exact Hc. cbn [snd extend gif_files] in *.
    change ((name, a) :: gif_files w0) with ([(name, a)] ++ gif_files w0) in Hw.
    apply app_inv_tail in Hw. now subst g. }
  unfold wrote in Hrun.
  destruct (csv_file w) as [c|] eqn:Hc; [now apply (Hcached c)|].
  destruct (remote w (net_calls w)) as [|c|c] eqn:Hr.
  - exfalso. revert Hrun.
    unfold generate_zhvi_animation, download_data, http_get.
    rewrite Hc. cbn [print csv_file remote net_calls stdout gif_files].
    rewrite Hr. cbn [negb snd print gif_files].
    intros H. symmetry in H. exact (cons_neq_self _ _ H).
  - destruct (generate_after_download zip_code_str w c Hc Hr) as [Hg Hd].
    rewrite Hg in *. rewrite Hd in *. cbn [snd] in *.
    apply (Hcached c); [reflexivity|exact Hrun].
  - exfalso. revert Hrun.
    unfold generate_zhvi_animation, download_data, http_get.
    rewrite Hc. cbn [print csv_file remote net_calls stdout gif_files].
    rewrite Hr. cbn [negb snd print write_csv gif_files].
    intros H. symmetry in H. exact (cons_neq_self _ _ H).
Qed.

Lemma rerun_writes_same_animation_witness :
  wrote "02134"
        (snd (generate_zhvi_animation "02134" Sample.boston))
        "zhvi_animation_02134.gif"
        (animation_of "02134" [Sample.allston Sample.rising]
                      [Some (Float64 100); Some (Float64 300)]
                      (Float64 100) (Float64 300)).
Proof.
  apply (rerun_writes_same_animation "02134" Sample.boston). reflexivity.
Defined.

(** ** More on the series extractor *)

Lemma extractor_aborts_iff_witness :
  exists ms,
    series_extractor "12345" (Sample.df Sample.months2 Sample.all_null)
    = Abort ms.
Proof.
  assert (Huniq : forall z,
            (List.length
               (zip_data_row z (Sample.df Sample.months2 Sample.all_null))
             <= 1)%nat).
  { intros z. unfold zip_data_row. cbn [Sample.df rows filter RegionName
      Sample.springfield].
    destruct (12345 =? z); cbn [List.length]; lia. }
  destruct (extractor_aborts_iff "12345"
              (Sample.df Sample.months2 Sample.all_null)
              ltac:(vm_compute; discriminate) Huniq) as [Hiff _].
  apply Hiff. unfold spec_extractor_fails.
  change (Py.int "12345") with (Some 12345). cbv iota beta.
  right; right. intros r c Hr _.
  change (zip_data_row 12345 (Sample.df Sample.months2 Sample.all_null))
    with [Sample.springfield Sample.all_null] in Hr.
  destruct Hr as [<-|[]]. reflexivity.
Defined.

(** X16: the lines a run that finds the dataset table prints when the
    extractor gives up, by cause, the earliest cause winning: an identifier
    that is no integer is reported as such, whatever the table holds; an
    integer without a row is reported with the identifier and the integer;
    with a row but no date column the missing columns are reported; with
    one row, several date columns and no number under any of them, the
    missing data is reported.  Each time the run returns after the loading
    line and these lines, and writes nothing. *)
Theorem abort_lines_by_cause (zip_code_str : string) (w : World)
    (df : DataFrame)
    (Hfile : csv_file w = Some (Table df)) :
  (Py.int zip_code_str = None ->
   generate_zhvi_animation zip_code_str w
   = (Returned, extend w [MsgLoading; MsgInvalidZip zip_code_str] []))
  /\ (forall z, Py.int zip_code_str = Some z ->
        zip_data_row z df = [] ->
        generate_zhvi_animation zip_code_str w
        = (Returned,
           extend w [MsgLoading; MsgZipNotFound zip_code_str z; MsgEnsureZip]
                  []))
  /\ (forall z, Py.int zip_code_str = Some z ->
        zip_data_row z df <> [] -> date_columns df = [] ->
        generate_zhvi_animation zip_code_str w
        = (Returned,
           extend w [MsgLoading; MsgNoDateColumns; MsgCheckCsv] []))
  /\ (forall z r, Py.int zip_code_str = Some z ->
        zip_data_row z df = [r] ->
        (2 <= List.length (date_columns df))%nat ->
        (forall c, In c (date_columns df) -> at_column r c = None) ->
        generate_zhvi_animation zip_code_str w
        = (Returned, extend w [MsgLoading; MsgNoData zip_code_str] [])).
Proof.
  assert (Hrun : forall ms,
            series_extractor zip_code_str df = Abort ms ->
            generate_zhvi_animation zip_code_str w
            = (Returned, extend w (MsgLoading :: ms) [])).
  { intros ms Hx.
    rewrite (proj1 (extractor_abort_ends_run _ _ _ _ Hfile Hx)).
    now rewrite !print_extend, extend_extend. }
  split; [|split; [|split]].
  - intros Hint. apply Hrun. unfold series_extractor. now rewrite Hint.
  - intros z Hint Hrow. apply Hrun. unfold series_extractor.
    now rewrite Hint, Hrow.
  - intros z Hint Hrow Hcols. apply Hrun. unfold series_extractor.
    rewrite Hint, Hcols.
    destruct (zip_data_row z df); [contradiction|reflexivity].
  - intros z r Hint Hrow Hlen Hnull. apply Hrun. unfold series_extractor.
    rewrite Hint, Hrow.
    destruct (date_columns df) as [|c [|c' cs]] eqn:Hc;
      [cbn in Hlen; lia|cbn in Hlen; lia|].
    cbn [is_empty select map squeeze List.length orb].
    assert (Hall : forallb isnull (map (at_column r) (c :: c' :: cs)) = true).
    { apply forallb_forall. intros x Hx. apply in_map_iff in Hx.
      destruct Hx as [c0 [<- Hc0]]. now rewrite Hnull. }
    cbn [map] in Hall. now rewrite Hall.
Qed.

Lemma abort_lines_by_cause_witness :
  generate_zhvi_animation "abcde" Sample.boston
  = (Returned, extend Sample.boston [MsgLoading; MsgInvalidZip "abcde"] [])
  /\ generate_zhvi_animation "99999" Sample.boston
     = (Returned,
        extend Sample.boston
               [MsgLoading; MsgZipNotFound "99999" 99999; MsgEnsureZip] []).
Proof.
  destruct (abort_lines_by_cause "abcde" Sample.boston _ eq_refl)
    as (Hbad & _).
  destruct (abort_lines_by_cause "99999" Sample.boston _ eq_refl)
    as (_ & Hrow & _).
  split; [apply Hbad; reflexivity|apply (Hrow 99999); reflexivity].
Defined.

(** X17: the extractor raises in exactly two situations: with one matched
    row and one date column ([AttributeError], the selection is squeezed to
    a scalar), and with several matched rows and several date columns
    ([ValueError], the selection stays a frame). *)
Theorem extractor_raises_iff (zip_code_str : string) (df : DataFrame)
    (e : exn) :
  series_extractor zip_code_str df = Crash e
  <-> exists z,
        Py.int zip_code_str = Some z
        /\ ((e = AttributeError
             /\ List.length (zip_data_row z df) = 1%nat
             /\ List.length (date_columns df) = 1%nat)
            \/ (e = ValueError
                /\ (2 <= List.length (zip_data_row z df))%nat
                /\ (2 <= List.length (date_columns df))%nat)).
Proof.
  unfold series_extractor.
  destruct (Py.int zip_code_str) as [z|].
  2:{ split; [discriminate|]. intros (z & H & _). discriminate H. }
  transitivity
    ((e = AttributeError
      /\ List.length (zip_data_row z df) = 1%nat
      /\ List.length (date_columns df) = 1%nat)
     \/ (e = ValueError
         /\ (2 <= List.length (zip_data_row z df))%nat
         /\ (2 <= List.length (date_columns df))%nat)).
  2:{ split.
      - intros H. exists z. now split.
      - intros (z' & [= <-] & H). exact H. }
  destruct (zip_data_row z df) as [|r [|r' rs]];
    destruct (date_columns df) as [|c [|c' cs]];
    cbn [is_empty select map squeeze List.length Nat.eqb orb flat_map firstn app].
  all: try (split; [discriminate|];
            intros [(_ & H1 & H2)|(_ & H1 & H2)]; lia).
  - split.
    + intros [= <-]. left. now repeat split.
    + intros [(-> & _)|(_ & H1 & _)]; [reflexivity|lia].
  - destruct (forallb isnull _);
      (split; [discriminate|]);
      intros [(_ & _ & H2)|(_ & H1 & _)]; lia.
  - destruct (forallb isnull _);
      (split; [discriminate|]);
      intros [(_ & H1 & _)|(_ & _ & H2)]; lia.
  - split.
    + intros [= <-]. right. repeat split; lia.
    + intros [(_ & H1 & _)|(-> & _)]; [lia|reflexivity].
Qed.

Lemma flat_map_firstn_singletons {A B : Type} (f : A -> B) (l : list A) :
  flat_map (fun r => firstn 1 r) (map (fun x => [f x]) l) = map f l.
Proof.
  induction l as [|x l IH]; [reflexivity|].
  cbn [map flat_map]. now rewrite IH.
Qed.

(** X18: what a successful extraction hands on.  The rows are those whose
    [RegionName] is the integer the identifier denotes.  With one such row
    the series holds its cells under the date columns, in header order, so
    it has as many points as there are date columns (two or more).  With
    several such rows and a single date column the series runs down that
    column, one point per row.  In both cases the series holds a number. *)
Theorem extracted_series_shape (zip_code_str : string) (df : DataFrame)
    (matched : list Row) (series : list cell)
    (Hx : series_extractor zip_code_str df = Extracted matched series) :
  exists z,
    Py.int zip_code_str = Some z
    /\ matched = zip_data_row z df
    /\ ((exists r, matched = [r]
                   /\ series = map (at_column r) (date_columns df)
                   /\ (2 <= List.length (date_columns df))%nat)
        \/ (exists c, date_columns df = [c]
                      /\ series = map (fun r => at_column r c) matched
                      /\ (2 <= List.length matched)%nat))
    /\ (exists v, In (Some v) series).
Proof.
  assert (Hnum := extracted_series_has_number _ _ _ _ Hx).
  assert (Hv : exists v, In (Some v) series).
  { exact (not_all_null_has_number _ Hnum). }
  unfold series_extractor in Hx.
  destruct (Py.int zip_code_str) as [z|]; [|discriminate].
  exists z. split; [reflexivity|].
  destruct (zip_data_row z df) as [|r [|r' rs]] eqn:Hm;
    destruct (date_columns df) as [|c [|c' cs]] eqn:Hc;
    cbn [is_empty select map squeeze List.length Nat.eqb orb] in Hx;
    try discriminate.
  - destruct (forallb isnull _); [discriminate|].
    injection Hx as <- <-. split; [reflexivity|]. split; [|exact Hv].
    left. exists r. repeat split. cbn. lia.
  - destruct (forallb isnull _) eqn:E in Hx.
    + destruct (is_empty _); discriminate.
    + rewrite orb_false_r in Hx. destruct (is_empty _); [discriminate|].
      injection Hx as <- <-. split; [reflexivity|]. split; [|exact Hv].
      right. exists c. split; [reflexivity|]. split; [|cbn; lia].
      exact (flat_map_firstn_singletons (fun r0 => at_column r0 c)
               (r :: r' :: rs)).
Qed.

Lemma extracted_series_shape_witness :
  exists z, Py.int "02134" = Some z
            /\ [Sample.allston Sample.rising]
               = zip_data_row z (mkDataFrame (Sample.header Sample.months2)
                                             [Sample.allston Sample.rising]).
Proof.
  destruct (extracted_series_shape "02134"
              (mkDataFrame (Sample.header Sample.months2)
                           [Sample.allston Sample.rising])
              [Sample.allston Sample.rising] [Some (Float64 100); Some (Float64 300)] eq_refl)
    as (z & Hz & Hm & _).
  exists z. split; [exact Hz|exact Hm].
Defined.

Lemma string_app_inv_tail (s1 s2 t : string) :
  (s1 ++ t = s2 ++ t)%string -> s1 = s2.
Proof.
  assert (Hlen : forall a b : string,
            String.length (a ++ b) = (String.length a + String.length b)%nat).
  { induction a as [|c a IH]; intros b; cbn; [reflexivity|now rewrite IH]. }
  revert s2. induction s1 as [|c s1 IH]; intros [|c2 s2] H; cbn in H.
  - reflexivity.
  - apply (f_equal String.length) in H. cbn in H. rewrite Hlen in H. lia.
  - apply (f_equal String.length) in H. cbn in H. rewrite Hlen in H. lia.
  - injection H as -> H. f_equal. now apply IH.
Qed.

(** X19: two identifiers that denote the same integer (leading zeros, a
    sign, underscores, blanks) select the same rows and the same series and
    fail alike; yet, when they differ as text, their animations go to
    different files. *)
Theorem same_region_different_files (z1 z2 : string) (df : DataFrame)
    (Hsame : Py.int z1 = Py.int z2) :
  (forall matched series,
     series_extractor z1 df = Extracted matched series ->
     series_extractor z2 df = Extracted matched series)
  /\ (forall e, series_extractor z1 df = Crash e ->
                series_extractor z2 df = Crash e)
  /\ ((exists ms, series_extractor z1 df = Abort ms) ->
      exists ms, series_extractor z2 df = Abort ms)
  /\ (z1 <> z2 -> gif_filename z1 <> gif_filename z2).
Proof.
  unfold series_extractor. rewrite <- Hsame.
  destruct (Py.int z1) as [z|].
  2:{ repeat split; try discriminate; [eauto|].
      intros Hne H. apply Hne. unfold gif_filename in H. cbn in H.
      injection H as H. exact (string_app_inv_tail _ _ _ H). }
  destruct (is_empty (zip_data_row z df)).
  { repeat split; try discriminate; [eauto|].
    intros Hne H. apply Hne. unfold gif_filename in H. cbn in H.
    injection H as H. exact (string_app_inv_tail _ _ _ H). }
  destruct (is_empty (date_columns df)).
  { repeat split; try discriminate; [eauto|].
    intros Hne H. apply Hne. unfold gif_filename in H. cbn in H.
    injection H as H. exact (string_app_inv_tail _ _ _ H). }
  destruct (squeeze _ _) as [v|vs|n sel];
    [|destruct (is_empty vs || forallb isnull vs)
     |destruct (is_empty sel || Nat.eqb n 0)];
    (repeat split; try discriminate; eauto;
     try (intros [ms H]; discriminate H);
     intros Hne H; apply Hne; unfold gif_filename in H; cbn in H;
     injection H as H; exact (string_app_inv_tail _ _ _ H)).
Qed.

Lemma same_region_different_files_witness :
  series_extractor "2134"
    (mkDataFrame (Sample.header Sample.months2) [Sample.allston Sample.rising])
  = Extracted [Sample.allston Sample.rising] [Some (Float64 100); Some (Float64 300)]
  /\ gif_filename "02134" <> gif_filename "2134".
Proof.
  destruct (same_region_different_files "02134" "2134"
              (mkDataFrame (Sample.header Sample.months2)
                           [Sample.allston Sample.rising]) eq_refl)
    as (Hext & _ & _ & Hname).
  split; [apply Hext; reflexivity|apply Hname; discriminate].
Defined.

(** X20: every header of the dataset that is a calendar date of the years
    1 to 9999 written as [YYYY-MM-DD], zero padded, is a value column. *)
Theorem iso_date_headers_are_value_columns (df : DataFrame) (y m d : Z)
    (Hdate : Py.valid_date y m d = true)
    (Hcol : In (Py.spec_iso_date y m d) (columns df)) :
  In (Py.spec_iso_date y m d) (date_columns df).
Proof.
  unfold date_columns. apply filter_In. split; [exact Hcol|].
  unfold is_date_column. now rewrite (strptime_accepts_iso_dates y m d Hdate).
Qed.

Lemma iso_date_headers_are_value_columns_witness :
  In "2020-02-29" (date_columns (Sample.df Sample.months2 Sample.rising)).
Proof.
  apply (iso_date_headers_are_value_columns
           (Sample.df Sample.months2 Sample.rising) 2020 2 29 eq_refl).
  cbn. tauto.
Defined.

(** ** The entry point *)

Lemma str_lstrip_split (s : string) :
  exists pre,
    s = (pre ++ Py.str_lstrip s)%string
    /\ (forall c, In c (list_ascii_of_string pre) -> Py.is_uspace c = true)
    /\ (forall c t, Py.str_lstrip s = String c t -> Py.is_uspace c = false).
Proof.
  induction s as [|a s (pre & Hs & Hpre & Hhd)].
  - exists EmptyString. cbn. repeat split; [tauto|discriminate].
  - cbn [Py.str_lstrip]. destruct (Py.is_uspace a) eqn:Ha.
    + exists (String a pre). cbn. split; [now rewrite <- Hs|].
      split; [|exact Hhd]. intros c [<-|Hc]; auto.
    + exists EmptyString. cbn. repeat split; [tauto|].
      intros c t [= <- _]. exact Ha.
Qed.

Lemma str_rstrip_split (s : string) :
  exists post,
    s = (Py.str_rstrip s ++ post)%string
    /\ (forall c, In c (list_ascii_of_string post) -> Py.is_uspace c = true).
Proof.
  induction s as [|a s (post & Hs & Hpost)].
  - exists EmptyString. cbn. split; [reflexivity|tauto].
  - cbn [Py.str_rstrip]. destruct (Py.str_rstrip s) as [|b r] eqn:Hr.
    + cbn in Hs. subst post. destruct (Py.is_uspace a) eqn:Ha.
      * exists (String a s). cbn. split; [reflexivity|].
        intros c [<-|Hc]; auto.
      * exists s. cbn. split; [reflexivity|exact Hpost].
    + exists post. cbn. split; [now rewrite Hs at 1|exact Hpost].
Qed.

Lemma str_rstrip_idem (s : string) :
  Py.str_rstrip (Py.str_rstrip s) = Py.str_rstrip s.
Proof.
  induction s as [|a s IH]; [reflexivity|].
  cbn [Py.str_rstrip]. destruct (Py.str_rstrip s) as [|b r] eqn:Hr.
  - destruct (Py.is_uspace a) eqn:Ha; [reflexivity|].
    cbn [Py.str_rstrip]. now rewrite Ha.
  - change (Py.str_rstrip (String a (String b r)))
      with (match Py.str_rstrip (String b r) with
            | EmptyString =>
                if Py.is_uspace a then EmptyString else String a EmptyString
            | String c r0 => String a (String c r0)
            end).
    now rewrite IH.
Qed.

Lemma str_rstrip_head (a : ascii) (s : string) :
  Py.is_uspace a = false ->
  exists t, Py.str_rstrip (String a s) = String a t.
Proof.
  intros Ha. cbn [Py.str_rstrip].
  destruct (Py.str_rstrip s); [rewrite Ha|]; eauto.
Qed.

Lemma strip_idem (s : string) : Py.strip (Py.strip s) = Py.strip s.
Proof.
  unfold Py.strip.
  destruct (str_lstrip_split s) as (pre & _ & _ & Hhd).
  destruct (Py.str_lstrip s) as [|a t] eqn:Hl; [reflexivity|].
  destruct (str_rstrip_head a t (Hhd a t eq_refl)) as [t' Ht].
  rewrite Ht. cbn [Py.str_lstrip]. rewrite (Hhd a t eq_refl).
  rewrite <- Ht. apply str_rstrip_idem.
Qed.

Lemma strip_split (s : string) :
  exists pre post,
    s = (pre ++ Py.strip s ++ post)%string
    /\ (forall c, In c (list_ascii_of_string pre) -> Py.is_uspace c = true)
    /\ (forall c, In c (list_ascii_of_string post) -> Py.is_uspace c = true).
Proof.
  destruct (str_lstrip_split s) as (pre & Hs & Hpre & _).
  destruct (str_rstrip_split (Py.str_lstrip s)) as (post & Hr & Hpost).
  exists pre, post. unfold Py.strip. rewrite <- Hr. now repeat split.
Qed.

Lemma strip_blank_iff (s : string) :
  Py.strip s = EmptyString
  <-> forall c, In c (list_ascii_of_string s) -> Py.is_uspace c = true.
Proof.
  split.
  - intros He. destruct (strip_split s) as (pre & post & Hs & Hpre & Hpost).
    rewrite He in Hs. cbn in Hs. rewrite Hs.
    intros c Hc. rewrite list_ascii_of_string_app in Hc.
    apply in_app_or in Hc. destruct Hc; auto.
  - intros Hall. unfold Py.strip.
    destruct (str_lstrip_split s) as (pre & Hs & _ & Hhd).
    destruct (Py.str_lstrip s) as [|a t]; [reflexivity|].
    exfalso. specialize (Hhd a t eq_refl).
    rewrite (Hall a) in Hhd; [discriminate|].
    rewrite Hs, list_ascii_of_string_app. apply in_or_app. right. now left.
Qed.

(** X21: when nothing but white space is typed, or no line can be read,
    the script starts no run: no request is made, no file is written, and
    only the entry point's own lines are printed. *)
Theorem no_identifier_no_run (ev : stdin_event) (w : World)
    (Hblank : forall line, ev = Typed line ->
                forall c, In c (list_ascii_of_string line) ->
                  Py.is_uspace c = true) :
  snd (main ev w) = w
  /\ (forall line, ev = Typed line ->
        main ev w = (Finished, [MainBanner; MainRule; MainNoZip], w))
  /\ (ev = NoStdin ->
      main ev w
      = (Finished, [MainBanner; MainRule; MainNoStdin; MainHint], w))
  /\ (ev = EndOfInput -> main ev w = (UncaughtEOF, [MainBanner; MainRule], w)).
Proof.
  destruct ev as [line| |].
  - assert (Hs : Py.strip line = EmptyString)
      by (apply strip_blank_iff; exact (Hblank line eq_refl)).
    unfold main. rewrite Hs.
    repeat split; try discriminate.
  - repeat split; try discriminate.
  - repeat split; try discriminate.
Qed.

Lemma no_identifier_no_run_witness :
  main (Typed "   ") Sample.fresh
  = (Finished, [MainBanner; MainRule; MainNoZip], Sample.fresh).
Proof.
  destruct (no_identifier_no_run (Typed "   ") Sample.fresh) as (_ & H & _).
  - intros line [= <-] c Hc. cbn in Hc.
    destruct Hc as [<-|[<-|[<-|[]]]]; reflexivity.
  - exact (H "   " eq_refl).
Defined.

(** X22: when the line typed holds anything but white space, the script
    runs [generate_zhvi_animation] on the line without its leading and
    trailing white space, ends with the run's exception if the run raises,
    and a file it writes is named after the stripped text. *)
Theorem typed_identifier_is_stripped (line : string) (w : World) (c : ascii)
    (Hin : In c (list_ascii_of_string line))
    (Hc : Py.is_uspace c = false) :
  (exists pre post,
     line = (pre ++ Py.strip line ++ post)%string
     /\ (forall x, In x (list_ascii_of_string pre) -> Py.is_uspace x = true)
     /\ (forall x, In x (list_ascii_of_string post) -> Py.is_uspace x = true))
  /\ Py.strip (Py.strip line) = Py.strip line
  /\ main (Typed line) w
     = (match fst (generate_zhvi_animation (Py.strip line) w) with
        | Returned => Finished
        | Raised e => Uncaught e
        end,
        [MainBanner; MainRule],
        snd (generate_zhvi_animation (Py.strip line) w))
  /\ (forall name a,
        gif_files (snd (main (Typed line) w)) = (name, a) :: gif_files w ->
        name = ("zhvi_animation_" ++ Py.strip line ++ ".gif")%string).
Proof.
  assert (Hne : Py.strip line <> EmptyString).
  { intros He. rewrite strip_blank_iff in He.
    rewrite (He c Hin) in Hc. discriminate. }
  assert (Hmain : main (Typed line) w
     = (match fst (generate_zhvi_animation (Py.strip line) w) with
        | Returned => Finished
        | Raised e => Uncaught e
        end,
        [MainBanner; MainRule],
        snd (generate_zhvi_animation (Py.strip line) w))).
  { unfold main. destruct (Py.strip line) as [|a t] eqn:Hs; [congruence|].
    destruct (generate_zhvi_animation (String a t) w) as [r w'].
    reflexivity. }
  split; [apply strip_split|]. split; [apply strip_idem|].
  split; [exact Hmain|].
  intros name a Hw. rewrite Hmain in Hw. cbn [snd] in Hw.
  destruct (generate_wrote_inv _ _ _ _ Hw)
    as (df & matched & series & mn & mx & _ & _ & _ & -> & _).
  reflexivity.
Qed.

Lemma typed_identifier_is_stripped_witness :
  gif_files (snd (main (Typed "  02134 ") Sample.boston))
  = [("zhvi_animation_02134.gif",
      animation_of "02134" [Sample.allston Sample.rising]
                   [Some (Float64 100); Some (Float64 300)]
                   (Float64 100) (Float64 300))]
  /\ "zhvi_animation_02134.gif"
     = ("zhvi_animation_" ++ Py.strip "  02134 " ++ ".gif")%string.
Proof.
  assert (Hw : gif_files (snd (main (Typed "  02134 ") Sample.boston))
               = ("zhvi_animation_02134.gif",
                  animation_of "02134" [Sample.allston Sample.rising]
                               [Some (Float64 100); Some (Float64 300)]
                               (Float64 100) (Float64 300))
                 :: gif_files Sample.boston) by reflexivity.
  split; [exact Hw|].
  destruct (typed_identifier_is_stripped "  02134 " Sample.boston "0"%char)
    as (_ & _ & _ & Hname).
  - cbn. tauto.
  - reflexivity.
  - exact (Hname _ _ Hw).
Defined.

(** ** The shape of a date header *)

Lemma in_range_digit (lo hi : Z) (c : ascii) :
  Py.in_range lo hi c = true -> 48 <= lo -> hi <= 57 ->
  Py.is_digit c = true.
Proof.
  unfold Py.in_range, Py.is_digit. intros H Hlo Hhi.
  apply andb_true_iff in H. destruct H as [H1 H2].
  apply Z.leb_le in H1, H2. apply andb_true_iff.
  split; apply Z.leb_le; lia.
Qed.

Lemma consumed_one (a : ascii) (r : string) :
  date_char a = true -> consumed 1 2 (String a r) r.
Proof.
  intros Ha. exists (String a EmptyString). cbn. rewrite Ha.
  repeat split; lia.
Qed.

Lemma consumed_two (a b : ascii) (r : string) :
  date_char a = true -> date_char b = true ->
  consumed 1 2 (String a (String b r)) r.
Proof.
  intros Ha Hb. exists (String a (String b EmptyString)). cbn.
  rewrite Ha, Hb. repeat split; lia.
Qed.

Lemma digit_date_char (c : ascii) : Py.is_digit c = true -> date_char c = true.
Proof. intros H. unfold date_char. now rewrite H. Qed.

Lemma consumed_trans (lo hi lo' hi' : nat) (s r t : string) :
  consumed lo hi s r -> consumed lo' hi' r t ->
  consumed (lo + lo') (hi + hi') s t.
Proof.
  intros (p & -> & Hp & Hpc) (q & -> & Hq & Hqc).
  exists (p ++ q)%string. split; [|split].
  - clear. induction p as [|c p IH]; cbn; [reflexivity|now rewrite IH].
  - assert (Hlen : String.length (p ++ q)
                   = (String.length p + String.length q)%nat).
    { clear. induction p as [|c p IH]; cbn; [reflexivity|now rewrite IH]. }
    lia.
  - rewrite list_ascii_of_string_app, forallb_app. now rewrite Hpc, Hqc.
Qed.

Lemma match_dash_shape (s r : string) :
  In r (Py.match_dash s) -> consumed 1 1 s r.
Proof.
  destruct s as [|a s]; [intros []|].
  destruct a as [[] [] [] [] [] [] [] []]; cbn; try tauto.
  intros [<-|[]]. exists "-"%string. cbn. repeat split; lia.
Qed.

Lemma match_Y_shape (s r : string) (y : Z) :
  In (y, r) (Py.match_Y s) -> consumed 4 4 s r.
Proof.
  destruct s as [|a [|b [|c [|d t]]]]; try (intros []).
  unfold Py.match_Y.
  destruct (Py.is_digit a) eqn:Ha; [|intros []].
  destruct (Py.is_digit b) eqn:Hb; [|intros []].
  destruct (Py.is_digit c) eqn:Hc; [|intros []].
  destruct (Py.is_digit d) eqn:Hd; [|intros []].
  cbn [andb]. intros [[= _ <-]|[]].
  exists (String a (String b (String c (String d EmptyString)))).
  cbn. rewrite !digit_date_char by assumption. repeat split; lia.
Qed.

Ltac eval_closed_tests :=
  repeat match goal with
         | |- context [Py.in_range ?l ?h (Ascii ?b0 ?b1 ?b2 ?b3 ?b4 ?b5 ?b6 ?b7)] =>
             let t := constr:(Py.in_range l h
                                (Ascii b0 b1 b2 b3 b4 b5 b6 b7)) in
             let v := eval vm_compute in t in
             change t with v
         end.

Ltac split_open_tests b :=
  repeat match goal with
         | |- context [Py.in_range ?l ?h b] =>
             destruct (Py.in_range l h b) eqn:?
         | |- context [Py.is_digit b] =>
             destruct (Py.is_digit b) eqn:?
         end.

Ltac close_consumed :=
  first [ apply consumed_one; reflexivity
        | apply consumed_two;
          [reflexivity
          |first [ apply digit_date_char; assumption
                 | apply digit_date_char;
                   eapply in_range_digit; [eassumption|lia|lia] ]] ].

Lemma match_m_shape (s r : string) (v : Z) :
  In (v, r) (Py.match_m s) -> consumed 1 2 s r.
Proof.
  destruct s as [|a [|b t]]; [intros []| |].
  - destruct a as [[] [] [] [] [] [] [] []];
      unfold Py.match_m; eval_closed_tests; cbn [app In andb];
      try tauto; intros [[= _ <-]|[]]; close_consumed.
  - destruct a as [[] [] [] [] [] [] [] []];
      unfold Py.match_m; eval_closed_tests; split_open_tests b;
      cbn [app In andb]; try tauto; intros H;
      repeat (destruct H as [[= _ <-]|H]; [close_consumed|]);
      destruct H.
Qed.

Lemma match_d_shape (s r : string) (v : Z) :
  In (v, r) (Py.match_d s) -> consumed 1 2 s r.
Proof.
  destruct s as [|a [|b t]]; [intros []| |].
  - destruct a as [[] [] [] [] [] [] [] []];
      unfold Py.match_d; eval_closed_tests; cbn [app In andb];
      try tauto; intros [[= _ <-]|[]]; close_consumed.
  - destruct a as [[] [] [] [] [] [] [] []];
      unfold Py.match_d; eval_closed_tests; split_open_tests b;
      cbn [app In andb]; try tauto; intros H;
      repeat (destruct H as [[= _ <-]|H]; [close_consumed|]);
      destruct H.
Qed.

(** X23: a value column's header has 8 to 10 characters, all of them digits,
    hyphens or blanks; so a header with a letter or a dot in it, such as
    [RegionName], [City] or [2020-01-31.1], is never a value column. *)
Theorem date_column_header_shape (df : DataFrame) (col_name : string)
    (Hcol : In col_name (date_columns df)) :
  (8 <= String.length col_name <= 10)%nat
  /\ (forall c, In c (list_ascii_of_string col_name) ->
        Py.is_digit c = true \/ c = "-"%char \/ c = " "%char).
Proof.
  unfold date_columns in Hcol. apply filter_In in Hcol.
  destruct Hcol as [_ Hd]. unfold is_date_column, Py.strptime_Ymd in Hd.
  destruct (Py.match_Ymd col_name) as [|[[[y m] d] rest] tl] eqn:Hm;
    [discriminate|].
  destruct rest as [|? ?]; [|discriminate]. clear Hd.
  assert (Hin : In (y, m, d, EmptyString) (Py.match_Ymd col_name))
    by (rewrite Hm; now left).
  unfold Py.match_Ymd in Hin. apply in_flat_map in Hin.
  destruct Hin as [[y' r1] [HY Hin]]. apply in_map_iff in Hin.
  destruct Hin as [[[m' d'] r5] [[= -> -> -> ->] Hmd]].
  unfold Py.match_md in Hmd. apply in_flat_map in Hmd.
  destruct Hmd as [r2 [H1 Hmd]]. apply in_flat_map in Hmd.
  destruct Hmd as [[m' r3] [H2 Hmd]]. apply in_flat_map in Hmd.
  destruct Hmd as [r4 [H3 Hmd]]. apply in_map_iff in Hmd.
  destruct Hmd as [[d' r5] [[= -> -> ->] H4]].
  pose proof (consumed_trans _ _ _ _ _ _ _ (match_Y_shape _ _ _ HY)
    (consumed_trans _ _ _ _ _ _ _ (match_dash_shape _ _ H1)
      (consumed_trans _ _ _ _ _ _ _ (match_m_shape _ _ _ H2)
        (consumed_trans _ _ _ _ _ _ _ (match_dash_shape _ _ H3)
          (match_d_shape _ _ _ H4))))) as (p & Hp & Hlen & Hch).
  assert (col_name = p).
  { rewrite Hp. clear. induction p as [|c p IH]; cbn; [reflexivity|].
    now rewrite IH. }
  subst p. split; [cbn in Hlen; lia|].
  intros c Hc. rewrite forallb_forall in Hch. specialize (Hch c Hc).
  unfold date_char in Hch.
  destruct (Py.is_digit c); [now left|]. right.
  destruct (Ascii.eqb_spec c "-"); [now left|].
  destruct (Ascii.eqb_spec c " "); [now right|discriminate].
Qed.

Lemma date_column_header_shape_witness :
  (8 <= String.length "2020-02-29" <= 10)%nat.
Proof.
  refine (proj1 (date_column_header_shape
                   (Sample.df Sample.months2 Sample.rising) "2020-02-29" _)).
  right. left. reflexivity.
Defined.

(** ** The texts of a date header *)

(** A boolean property checked on the 256 characters holds of every
    character. *)
Lemma forall_ascii (P : ascii -> bool) :
  forallb P (map ascii_of_nat (seq 0 256)) = true -> forall c, P c = true.
Proof.
  intros H c. rewrite forallb_forall in H. apply H.
  apply in_map_iff. exists (nat_of_ascii c).
  split; [apply ascii_nat_embedding|].
  apply in_seq. pose proof (nat_ascii_bounded c). lia.
Qed.

Lemma digit_char_inv (c : ascii) :
  Py.is_digit c = true ->
  Py.digit_char (Py.digit_value c) = c /\ 0 <= Py.digit_value c <= 9.
Proof.
  intros H.
  pose proof (forall_ascii
    (fun c => implb (Py.is_digit c)
                (Ascii.eqb (Py.digit_char (Py.digit_value c)) c
                 && (0 <=? Py.digit_value c) && (Py.digit_value c <=? 9)))
    ltac:(vm_compute; reflexivity) c) as Hc.
  cbv beta in Hc. rewrite H in Hc. cbn [implb] in Hc.
  apply andb_true_iff in Hc. destruct Hc as [Hc H9].
  apply andb_true_iff in Hc. destruct Hc as [Hc H0].
  apply Ascii.eqb_eq in Hc. apply Z.leb_le in H0, H9. now split.
Qed.

Lemma text_of_sound (texts : Z -> list string) (lo hi : Z) (p : string)
    (v : Z) :
  text_of texts lo hi p v = true -> In p (texts v) /\ lo <= v <= hi.
Proof.
  unfold text_of. intros H.
  apply andb_true_iff in H. destruct H as [H Hhi].
  apply andb_true_iff in H. destruct H as [H Hlo].
  apply Z.leb_le in Hlo, Hhi. apply existsb_exists in H.
  destruct H as [x [Hin Hx]]. apply String.eqb_eq in Hx. subst x.
  split; [exact Hin|lia].
Qed.

Lemma one_char_text (texts : Z -> list string) (lo hi : Z) (a : ascii)
    (r : string) (v : Z) :
  text_of texts lo hi (String a EmptyString) v = true ->
  exists p, String a r = (p ++ r)%string /\ In p (texts v) /\ lo <= v <= hi.
Proof.
  intros H. apply text_of_sound in H. exists (String a EmptyString).
  split; [reflexivity|exact H].
Qed.

Lemma two_char_text (texts : Z -> list string) (lo hi : Z) (a b : ascii)
    (r : string) (v : Z) :
  text_of texts lo hi (String a (String b EmptyString)) v = true ->
  exists p, String a (String b r) = (p ++ r)%string
            /\ In p (texts v) /\ lo <= v <= hi.
Proof.
  intros H. apply text_of_sound in H.
  exists (String a (String b EmptyString)). split; [reflexivity|exact H].
Qed.

(** The two-character alternatives of [%m] and [%d], one by one. *)
Lemma month_alternatives (b : ascii) :
  (Py.in_range 48 50 b = true ->
   text_of Py.spec_month_texts 1 12 (String "1" (String b EmptyString))
           (10 + Py.digit_value b) = true)
  /\ (Py.in_range 49 57 b = true ->
      text_of Py.spec_month_texts 1 12 (String "0" (String b EmptyString))
              (Py.digit_value b) = true).
Proof.
  pose proof (forall_ascii
    (fun b =>
       implb (Py.in_range 48 50 b)
         (text_of Py.spec_month_texts 1 12 (String "1" (String b EmptyString))
                  (10 + Py.digit_value b))
       && implb (Py.in_range 49 57 b)
            (text_of Py.spec_month_texts 1 12
                     (String "0" (String b EmptyString)) (Py.digit_value b)))
    ltac:(vm_compute; reflexivity) b) as H.
  cbv beta in H. apply andb_true_iff in H. destruct H as [H1 H2].
  split; intros Hb; rewrite Hb in *; assumption.
Qed.

Lemma day_alternatives (b : ascii) :
  (Py.in_range 48 49 b = true ->
   text_of Py.spec_day_texts 1 31 (String "3" (String b EmptyString))
           (30 + Py.digit_value b) = true)
  /\ (Py.in_range 49 57 b = true ->
      text_of Py.spec_day_texts 1 31 (String "0" (String b EmptyString))
              (Py.digit_value b) = true)
  /\ (Py.in_range 49 57 b = true ->
      text_of Py.spec_day_texts 1 31 (String " " (String b EmptyString))
              (Py.digit_value b) = true).
Proof.
  pose proof (forall_ascii
    (fun b =>
       implb (Py.in_range 48 49 b)
         (text_of Py.spec_day_texts 1 31 (String "3" (String b EmptyString))
                  (30 + Py.digit_value b))
       && implb (Py.in_range 49 57 b)
            (text_of Py.spec_day_texts 1 31
                     (String "0" (String b EmptyString)) (Py.digit_value b))
       && implb (Py.in_range 49 57 b)
            (text_of Py.spec_day_texts 1 31
                     (String " " (String b EmptyString)) (Py.digit_value b)))
    ltac:(vm_compute; reflexivity) b) as H.
  cbv beta in H. apply andb_true_iff in H. destruct H as [H H3].
  apply andb_true_iff in H. destruct H as [H1 H2].
  repeat split; intros Hb; rewrite Hb in *; assumption.
Qed.

Lemma day_teens_and_twenties (a b : ascii) :
  Py.in_range 49 50 a = true -> Py.is_digit b = true ->
  text_of Py.spec_day_texts 1 31 (String a (String b EmptyString))
          (10 * Py.digit_value a + Py.digit_value b) = true.
Proof.
  intros Ha Hb.
  pose proof (forall_ascii
    (fun a => forallb
       (fun b =>
          implb (Py.in_range 49 50 a && Py.is_digit b)
            (text_of Py.spec_day_texts 1 31 (String a (String b EmptyString))
                     (10 * Py.digit_value a + Py.digit_value b)))
       (map ascii_of_nat (seq 0 256)))
    ltac:(vm_compute; reflexivity) a) as H.
  cbv beta in H. pose proof (forall_ascii _ H b) as H'. cbv beta in H'.
  now rewrite Ha, Hb in H'.
Qed.

Ltac close_text texts lo hi :=
  first [ apply (one_char_text texts lo hi); vm_compute; reflexivity
        | apply (two_char_text texts lo hi);
          first [ apply (proj1 (month_alternatives _)); assumption
                | apply (proj2 (month_alternatives _)); assumption
                | apply (proj1 (day_alternatives _)); assumption
                | apply (proj1 (proj2 (day_alternatives _))); assumption
                | apply (proj2 (proj2 (day_alternatives _))); assumption
                | apply day_teens_and_twenties;
                  [vm_compute; reflexivity|assumption] ] ].

(** What [%m] consumes is one of the texts of the month it reads. *)
Lemma match_m_text (s r : string) (v : Z) :
  In (v, r) (Py.match_m s) ->
  exists p, s = (p ++ r)%string
            /\ In p (Py.spec_month_texts v) /\ 1 <= v <= 12.
Proof.
  destruct s as [|a [|b t]]; [intros []| |].
  - destruct a as [[] [] [] [] [] [] [] []];
      unfold Py.match_m; eval_closed_tests; cbn [app In andb];
      try tauto; intros [[= <- <-]|[]];
      close_text Py.spec_month_texts 1 12.
  - destruct a as [[] [] [] [] [] [] [] []];
      unfold Py.match_m; eval_closed_tests; split_open_tests b;
      cbn [app In andb]; try tauto; intros H;
      repeat (destruct H as [[= <- <-]|H];
              [close_text Py.spec_month_texts 1 12|]);
      destruct H.
Qed.

(** What [%d] consumes is one of the texts of the day it reads. *)
Lemma match_d_text (s r : string) (v : Z) :
  In (v, r) (Py.match_d s) ->
  exists p, s = (p ++ r)%string
            /\ In p (Py.spec_day_texts v) /\ 1 <= v <= 31.
Proof.
  destruct s as [|a [|b t]]; [intros []| |].
  - destruct a as [[] [] [] [] [] [] [] []];
      unfold Py.match_d; eval_closed_tests; cbn [app In andb];
      try tauto; intros [[= <- <-]|[]];
      close_text Py.spec_day_texts 1 31.
  - destruct a as [[] [] [] [] [] [] [] []];
      unfold Py.match_d; eval_closed_tests; split_open_tests b;
      cbn [app In andb]; try tauto; intros H;
      repeat (destruct H as [[= <- <-]|H];
              [close_text Py.spec_day_texts 1 31|]);
      destruct H.
Qed.

Lemma match_dash_text (s r : string) :
  In r (Py.match_dash s) -> s = String "-" r.
Proof.
  destruct s as [|a s]; [intros []|].
  destruct a as [[] [] [] [] [] [] [] []]; cbn; try tauto.
  intros [<-|[]]. reflexivity.
Qed.

(** What [%Y] consumes is the four digits of the year it reads. *)
Lemma match_Y_text (s r : string) (y : Z) :
  In (y, r) (Py.match_Y s) ->
  s = Py.two_digits (y / 100) (Py.two_digits (y mod 100) r).
Proof.
  destruct s as [|a [|b [|c [|d t]]]]; try (intros []).
  unfold Py.match_Y.
  destruct (Py.is_digit a) eqn:Ha; [|intros []].
  destruct (Py.is_digit b) eqn:Hb; [|intros []].
  destruct (Py.is_digit c) eqn:Hc; [|intros []].
  destruct (Py.is_digit d) eqn:Hd; [|intros []].
  cbn [andb]. intros [H|[]].
  assert (Hy : y = 1000 * Py.digit_value a + 100 * Py.digit_value b
                   + 10 * Py.digit_value c + Py.digit_value d)
    by congruence.
  assert (Hr : r = t) by congruence.
  clear H. subst y r.
  destruct (digit_char_inv a Ha) as [Ea Ra].
  destruct (digit_char_inv b Hb) as [Eb Rb].
  destruct (digit_char_inv c Hc) as [Ec Rc].
  destruct (digit_char_inv d Hd) as [Ed Rd].
  set (A := Py.digit_value a) in *. set (B := Py.digit_value b) in *.
  set (C := Py.digit_value c) in *. set (D := Py.digit_value d) in *.
  replace ((1000 * A + 100 * B + 10 * C + D) / 100) with (10 * A + B)
    by (apply Z.div_unique with (10 * C + D); lia).
  replace ((1000 * A + 100 * B + 10 * C + D) mod 100) with (10 * C + D)
    by (apply Z.mod_unique with (10 * A + B); lia).
  unfold Py.two_digits.
  replace ((10 * A + B) / 10) with A by (apply Z.div_unique with B; lia).
  replace ((10 * A + B) mod 10) with B by (apply Z.mod_unique with A; lia).
  replace ((10 * C + D) / 10) with C by (apply Z.div_unique with D; lia).
  replace ((10 * C + D) mod 10) with D by (apply Z.mod_unique with C; lia).
  now rewrite Ea, Eb, Ec, Ed.
Qed.

Lemma string_app_nil_r (s : string) : (s ++ "")%string = s.
Proof. induction s as [|c s IH]; cbn; [reflexivity|now rewrite IH]. Qed.

(** Every text of a month and a day is read back by [-%m-%d] as that month
    and that day, with nothing left over. *)
Lemma match_md_texts (m d : Z) (mt dt : string) :
  1 <= m <= 12 -> 1 <= d <= 31 ->
  In mt (Py.spec_month_texts m) -> In dt (Py.spec_day_texts d) ->
  hd_error (Py.match_md (String "-" (mt ++ String "-" dt)))
  = Some (m, d, EmptyString).
Proof.
  intros Hm Hd Hmt Hdt.
  pose (ok := fun m' d' =>
          forallb (fun mt' =>
            forallb (fun dt' =>
              match hd_error (Py.match_md
                      (String "-" (mt' ++ String "-" dt'))) with
              | Some (m1, d1, EmptyString) => (m1 =? m') && (d1 =? d')
              | _ => false
              end)
              (Py.spec_day_texts d'))
            (Py.spec_month_texts m')).
  assert (Hall : forallb (fun m' =>
            forallb (ok m') (map (fun k => 1 + Z.of_nat k) (seq 0 31)))
            (map (fun k => 1 + Z.of_nat k) (seq 0 12)) = true)
    by (vm_compute; reflexivity).
  pose proof (forallb_interval _ 1 12 Hall m ltac:(lia)) as Hrow.
  pose proof (forallb_interval _ 1 31 Hrow d ltac:(lia)) as Hok.
  unfold ok in Hok. rewrite forallb_forall in Hok.
  specialize (Hok mt Hmt). rewrite forallb_forall in Hok.
  specialize (Hok dt Hdt).
  destruct (hd_error _) as [[[m1 d1] [|? ?]]|]; try discriminate.
  apply andb_true_iff in Hok. destruct Hok as [H1 H2].
  apply Z.eqb_eq in H1, H2. now subst.
Qed.

Lemma valid_date_bounds (y m d : Z) :
  Py.valid_date y m d = true -> 1 <= y <= 9999 /\ 1 <= m <= 12 /\ 1 <= d <= 31.
Proof.
  intros Hv. unfold Py.valid_date in Hv.
  repeat (apply andb_true_iff in Hv; destruct Hv as [Hv ?]).
  assert (Hd31 : Py.days_in_month y m <= 31).
  { unfold Py.days_in_month.
    destruct (m =? 2); [destruct (Py.is_leap y); lia|].
    destruct ((m =? 4) || (m =? 6) || (m =? 9) || (m =? 11)); lia. }
  lia.
Qed.

(** [strptime] accepts exactly the texts of the calendar dates, and reads
    each as the date it is a text of. *)
Lemma strptime_Ymd_texts (s : string) (y m d : Z) :
  Py.strptime_Ymd s = Some (y, m, d)
  <-> Py.valid_date y m d = true /\ In s (Py.spec_date_texts y m d).
Proof.
  split.
  - unfold Py.strptime_Ymd.
    destruct (Py.match_Ymd s) as [|[[[y0 m0] d0] rest] tl] eqn:Hm;
      [discriminate|].
    destruct rest as [|? ?]; [|discriminate].
    destruct (Py.valid_date y0 m0 d0) eqn:Hv; [|discriminate].
    intros [= <- <- <-]. split; [exact Hv|].
    assert (Hin : In (y0, m0, d0, EmptyString) (Py.match_Ymd s))
      by (rewrite Hm; now left).
    unfold Py.match_Ymd in Hin. apply in_flat_map in Hin.
    destruct Hin as [[y' r1] [HY Hin]]. apply in_map_iff in Hin.
    destruct Hin as [[[m' d'] r5] [[= -> -> -> ->] Hmd]].
    unfold Py.match_md in Hmd. apply in_flat_map in Hmd.
    destruct Hmd as [r2 [H1 Hmd]]. apply in_flat_map in Hmd.
    destruct Hmd as [[m' r3] [H2 Hmd]]. apply in_flat_map in Hmd.
    destruct Hmd as [r4 [H3 Hmd]]. apply in_map_iff in Hmd.
    destruct Hmd as [[d' r5] [[= -> -> ->] H4]].
    apply match_Y_text in HY. apply match_dash_text in H1, H3.
    apply match_m_text in H2. destruct H2 as (pm & -> & Hpm & _).
    apply match_d_text in H4. destruct H4 as (pd & -> & Hpd & _).
    rewrite string_app_nil_r in H3. subst r3 r1 s.
    unfold Py.spec_date_texts. apply in_flat_map. exists pm.
    split; [exact Hpm|]. apply in_map_iff. exists pd.
    split; [reflexivity|exact Hpd].
  - intros [Hv Hin].
    destruct (valid_date_bounds _ _ _ Hv) as (Hy & Hm & Hd).
    unfold Py.spec_date_texts in Hin. apply in_flat_map in Hin.
    destruct Hin as [mt [Hmt Hin]]. apply in_map_iff in Hin.
    destruct Hin as [dt [<- Hdt]].
    unfold Py.strptime_Ymd, Py.match_Ymd.
    pose proof (Z.div_mod y 100 ltac:(lia)) as Hy100.
    pose proof (Z.mod_pos_bound y 100 ltac:(lia)) as Hyr.
    assert (0 <= y / 100 <= 99).
    { split; [apply Z.div_pos; lia|]. apply Z.lt_succ_r.
      apply Z.div_lt_upper_bound; lia. }
    pose proof (Z.div_mod (y / 100) 10 ltac:(lia)) as Hab.
    pose proof (Z.mod_pos_bound (y / 100) 10 ltac:(lia)).
    pose proof (Z.div_mod (y mod 100) 10 ltac:(lia)) as Hcd.
    pose proof (Z.mod_pos_bound (y mod 100) 10 ltac:(lia)).
    assert (0 <= y / 100 / 10 <= 9).
    { split; [apply Z.div_pos; lia|]. apply Z.lt_succ_r.
      apply Z.div_lt_upper_bound; lia. }
    assert (0 <= y mod 100 / 10 <= 9).
    { split; [apply Z.div_pos; lia|]. apply Z.lt_succ_r.
      apply Z.div_lt_upper_bound; lia. }
    rewrite Hab at 1. rewrite Hcd at 1.
    rewrite match_Y_digits by lia.
    cbn [flat_map]. rewrite app_nil_r.
    pose proof (match_md_texts m d mt dt Hm Hd Hmt Hdt) as Hmd.
    destruct (Py.match_md _) as [|p tl]; [discriminate|].
    injection Hmd as ->. cbn [map].
    replace (1000 * (y / 100 / 10) + 100 * ((y / 100) mod 10)
             + 10 * (y mod 100 / 10) + (y mod 100) mod 10) with y by lia.
    now rewrite Hv.
Qed.

(** ** Value columns *)

(** C8, as the specification words it, fails on a table with the headers
    [2020-1-5] and [2020-01- 5]: both are value columns, and neither is
    the text [YYYY-MM-DD] of a calendar date: the first is too short, the
    second has a blank where the form has a digit. *)
Lemma value_column_header_not_iso :
  date_columns (Sample.df ["2020-1-5"; "2020-01- 5"] Sample.rising)
  = ["2020-1-5"; "2020-01- 5"]
  /\ ~ Py.spec_is_iso_date "2020-1-5"
  /\ ~ Py.spec_is_iso_date "2020-01- 5".
Proof.
  split; [reflexivity|]. split.
  - intros (y & m & d & _ & H).
    apply (f_equal String.length) in H. discriminate H.
  - intros (y & m & d & Hv & H).
    destruct (valid_date_bounds _ _ _ Hv) as (_ & _ & Hd).
    unfold Py.spec_iso_date, Py.two_digits in H.
    assert (Hq : 0 <= d / 10 <= 9).
    { split; [apply Z.div_pos; lia|]. apply Z.lt_succ_r.
      apply Z.div_lt_upper_bound; lia. }
    destruct (digit_char_ok _ Hq) as [Hdig _].
    assert (Hblank : " "%char = Py.digit_char (d / 10)) by congruence.
    rewrite <- Hblank in Hdig. discriminate Hdig.
Qed.

(** C8, amended: a header is among the value columns exactly when it is a
    header of the dataset and one of the texts of a calendar date: the year
    in four digits, a hyphen, the month in two digits or, below 10, in one,
    a hyphen, and the day in two digits or, below 10, in one, alone or
    after a blank.  The zero-padded text [YYYY-MM-DD] of a calendar date is
    always one of these.  The series is read from the value columns
    alone, so every other column is an attribute. *)
Theorem value_column_iff_date_text (df : DataFrame) (col_name : string) :
  (In col_name (date_columns df) <->
   In col_name (columns df)
   /\ exists y m d,
        Py.valid_date y m d = true
        /\ In col_name (Py.spec_date_texts y m d))
  /\ (forall y m d, In (Py.spec_iso_date y m d) (Py.spec_date_texts y m d))
  /\ (forall r r' : Row,
        (forall c, In c (date_columns df) -> at_column r c = at_column r' c) ->
        select (date_columns df) [r] = select (date_columns df) [r']).
Proof.
  split; [|split].
  - unfold date_columns. rewrite filter_In. unfold is_date_column.
    split.
    + intros [Hin Hp]. split; [exact Hin|].
      destruct (Py.strptime_Ymd col_name) as [[[y m] d]|] eqn:E;
        [|discriminate].
      exists y, m, d. now apply strptime_Ymd_texts.
    + intros [Hin (y & m & d & Hv & Ht)]. split; [exact Hin|].
      now rewrite (proj2 (strptime_Ymd_texts col_name y m d) (conj Hv Ht)).
  - intros y m d. unfold Py.spec_date_texts, Py.spec_month_texts.
    cbn [flat_map]. apply in_or_app. left.
    unfold Py.spec_day_texts. cbn [map]. left. reflexivity.
  - intros r r' Hagree. unfold select. cbn [map]. f_equal.
    apply map_ext_in. exact Hagree.
Qed.
